(** * MattsRep: the two ArcGIS script tools, [clip_dem.py] and
    [ArthurGEOG567_Final.py]

    Both scripts are straight-line glue around the [arcpy] geoprocessing
    toolbox.  The toolbox is external: here it is an arbitrary oracle that
    answers every call either with a value of the documented type or with an
    exception.  A script is then a computation in a writer/exception monad:
    it emits the chronological list of what it did (toolbox calls with their
    answers, messages, errors, prints) and ends normally or with an uncaught
    exception.

    What is taken of Python and the toolbox: coordinates are floats (IEEE
    doubles, as in CPython) and the integer buffers are converted exactly;
    [arcpy.AddMessage], [arcpy.AddError] and [print] always return; an
    answer of the toolbox has the attributes the script reads from it; a
    missing active map shows as an exception of the first call on it. *)

From Stdlib Require Import Floats.PrimFloat Floats.SpecFloat Floats.FloatOps.
From stdpp Require Import base strings list gmap pretty.

Set Default Proof Using "Type".

(** ** Python exceptions *)

Inductive exc_class :=
  | ValueError | ExecuteError | AttributeError | NameError | TypeError
  | RuntimeError | OSError | KeyboardInterrupt | SystemExit.

(** An exception object: its class and [str(e)]. *)
Record exc := Exc { exc_cls : exc_class; exc_str : string }.

(** [isinstance(e, Exception)]: everything but the two [BaseException]-only
    classes. *)
Definition is_Exception (e : exc) : bool :=
  match exc_cls e with
  | KeyboardInterrupt | SystemExit => false
  | _ => true
  end.

(** [isinstance(e, arcpy.ExecuteError)]. *)
Definition is_ExecuteError (e : exc) : bool :=
  match exc_cls e with
  | ExecuteError => true
  | _ => false
  end.

(** ** The objects the toolbox hands back *)

Record Field := { field_name : string }.
Record Layer := { layer_name : string }.
Record Extent := { XMin : float; YMin : float; XMax : float; YMax : float }.
Record SpatialRef := { factoryCode : Z }.
Record Description := {
  dataType : string;
  spatialReference : SpatialRef;
  extent : Extent
}.
Record Raster := { raster_id : nat }.
Record Project_ := { project_id : nat }.
Record Map_ := { map_id : nat }.

(** The second argument of [m.moveLayer(layer, 1)] / [m.moveLayer(layer, "TOP")]. *)
Inductive pyarg := PInt (n : Z) | PStr (s : string).

(** ** Toolbox calls, with the arguments the scripts pass *)

Inductive call :=
  | GetParameterAsText (index : nat)
  | SpatialReference (wkid : Z)
  | TableToTable_conversion (in_rows out_path out_name : string)
  | ListFields (dataset : string)
  | XYTableToPoint (in_table out_feature_class x_field y_field z_field : string)
      (coordinate_system : SpatialRef)
  | Exists (dataset : string)
  | Describe (value : string)
  | Project (in_dataset out_dataset : string) (out_coor_system : SpatialRef)
  | ProjectRaster (in_raster out_raster : string) (out_coor_system : SpatialRef)
  | Clip (in_raster rectangle out_raster in_template_dataset nodata_value
          clipping_geometry maintain_clipping_extent : string)
  | Delete_management (in_data : string)
  | SetParameterAsText (index : nat) (text : string)
  | Slope (in_raster output_measurement : string)
  | Aspect (in_raster : string)
  | Curvature (in_raster : string)
  | Hillshade (in_raster : string) (azimuth altitude : Z)
  | Raster_save (r : Raster) (name : string)
  | ExtractMultiValuesToPoints (in_point_features : string)
      (in_rasters : list (string * string)) (bilinear_interpolate_values : string)
  | ArcGISProject (aprx_path : string)
  | activeMap (aprx : Project_)
  | addDataFromPath (m : Map_) (data_path : string)
  | moveLayer (m : Map_) (reference_layer : Layer) (move_layer : pyarg)
  | listLayers (m : Map_)
  | ArcpyAttr (attr : string)
  | GetMessages (severity : nat).

(** The type of a successful answer. *)
Definition resp (c : call) : Type :=
  match c with
  | GetParameterAsText _ | GetMessages _ => string
  | SpatialReference _ => SpatialRef
  | ListFields _ => list Field
  | Exists _ => bool
  | Describe _ => Description
  | Slope _ _ | Aspect _ | Curvature _ | Hillshade _ _ _ => Raster
  | ArcGISProject _ => Project_
  | activeMap _ => Map_
  | addDataFromPath _ _ => option Layer
  | listLayers _ => list Layer
  | _ => unit
  end.

(** Answers as they are written into the trace. *)
Inductive value :=
  | VNone
  | VStr (s : string)
  | VBool (b : bool)
  | VSpatialRef (sr : SpatialRef)
  | VFields (fs : list Field)
  | VDescription (d : Description)
  | VRaster (r : Raster)
  | VProject (p : Project_)
  | VMap (m : Map_)
  | VLayer (l : option Layer)
  | VLayers (ls : list Layer).

Definition to_value (c : call) : resp c -> value :=
  match c with
  | GetParameterAsText _ | GetMessages _ => VStr
  | SpatialReference _ => VSpatialRef
  | ListFields _ => VFields
  | Exists _ => VBool
  | Describe _ => VDescription
  | Slope _ _ | Aspect _ | Curvature _ | Hillshade _ _ _ => VRaster
  | ArcGISProject _ => VProject
  | activeMap _ => VMap
  | addDataFromPath _ _ => VLayer
  | listLayers _ => VLayers
  | _ => fun _ => VNone
  end.

(** ** What a run leaves behind *)

(** Where a line of text goes: [arcpy.AddMessage], [arcpy.AddError], [print]. *)
Inductive channel := Message | Error | Stdout.

Global Instance channel_eq_dec : EqDecision channel.
Proof. solve_decision. Defined.

Inductive event :=
  | Call (line : nat) (c : call) (r : exc + value)
  | Log (ch : channel) (s : string).

Abbreviation AddMessage := (Log Message).
Abbreviation AddError := (Log Error).
Abbreviation print := (Log Stdout).

(** The host of a run: the toolbox oracle, keyed by the source line of the
    call site and the call made there (every call site of either script is
    executed at most once in a run, so this covers every behaviour of the
    toolbox), and the two Python library functions the scripts use that are
    not modelled further. *)
Record host := {
  toolbox : nat -> forall c : call, exc + resp c;
  os_path_join : string -> string -> string;
  float_str : float -> string
}.

(** ** The script monad *)

Inductive result (A : Type) :=
  | Ok (a : A)
  | Raise (e : exc).
Arguments Ok {A} a.
Arguments Raise {A} e.

Definition M (A : Type) : Type := list event * result A.

Definition trace {A} (m : M A) : list event := fst m.
Definition outcome {A} (m : M A) : result A := snd m.

Definition ret {A} (a : A) : M A := ([], Ok a).
Definition raise {A} (e : exc) : M A := ([], Raise e).
Definition bind {A B} (m : M A) (k : A -> M B) : M B :=
  match m with
  | (t, Ok a) => let '(t', r) := k a in (t ++ t', r)
  | (t, Raise e) => (t, Raise e)
  end.
Definition emit (ev : event) : M unit := ([ev], Ok tt).

Declare Scope script_scope.
Delimit Scope script_scope with script.
Notation "x <- m ;; k" := (bind m (fun x => k))
  (at level 100, m at next level, right associativity) : script_scope.
Notation "m ;; k" := (bind m (fun _ => k))
  (at level 100, right associativity) : script_scope.
Open Scope script_scope.

(** [try: body except C1: h1 except C2: h2 ...]: the first clause whose class
    test accepts the exception handles it; with none, it propagates. *)
Definition handler (A : Type) : Type := (exc -> bool) * (exc -> M A).

Fixpoint dispatch {A} (hs : list (handler A)) (e : exc) : M A :=
  match hs with
  | [] => raise e
  | (test, h) :: hs' => if test e then h e else dispatch hs' e
  end.

Definition try_except {A} (body : M A) (hs : list (handler A)) : M A :=
  match body with
  | (t, Ok a) => (t, Ok a)
  | (t, Raise e) => let '(t', r) := dispatch hs e in (t ++ t', r)
  end.

(** [for x in l: body]. *)
Fixpoint for_ {A} (l : list A) (body : A -> M unit) : M unit :=
  match l with
  | [] => ret tt
  | x :: l' => body x ;; for_ l' body
  end.

(** [enumerate(l)]. *)
Definition enumerate {A} (l : list A) : list (nat * A) := imap (fun i x => (i, x)) l.

(** Truth value of what [addDataFromPath] returned: a layer object or [None]. *)
Definition truthy (l : option Layer) : bool :=
  match l with Some _ => true | None => false end.

(** [x in names] on a list of strings. *)
Definition py_in (x : string) (names : list string) : bool :=
  bool_decide (x ∈ names).

(** Python's [a > b] and [a < b] on floats. *)
Definition gt (a b : float) : bool := PrimFloat.ltb b a.
Definition lt (a b : float) : bool := PrimFloat.ltb a b.

(** One toolbox call at a source line. *)
Definition tool (h : host) (line : nat) (c : call) : M (resp c) :=
  match toolbox h line c with
  | inl e => ([Call line c (inl e)], Raise e)
  | inr r => ([Call line c (inr (to_value c r))], Ok r)
  end.

(** ** clip_dem.py *)

Module clip_dem.
Section Script.
Variable h : host.

Definition script : M unit :=
  input_csv <- tool h 5 (GetParameterAsText 0) ;;
  output_gdb <- tool h 6 (GetParameterAsText 1) ;;
  output_fc <- tool h 7 (GetParameterAsText 2) ;;
  dem_path <- tool h 8 (GetParameterAsText 3) ;;
  clipped_dem <- tool h 9 (GetParameterAsText 4) ;;
  wgs84 <- tool h 12 (SpatialReference 4326) ;;
  nad83 <- tool h 15 (SpatialReference 4269) ;;
  alberta_3tm <- tool h 18 (SpatialReference 3776) ;;
  (* Create a temporary table from the CSV *)
  let temp_table := "in_memory\temp_table" in
  tool h 22 (TableToTable_conversion input_csv "in_memory" "temp_table") ;;
  let x_field := "Longitude" in
  let y_field := "Latitude" in
  (* Check if the required fields exist in the CSV *)
  fields <- tool h 29 (ListFields temp_table) ;;
  let field_names := map field_name fields in
  for_ [x_field; y_field] (fun field =>
    if negb (py_in field field_names) then
      emit (AddError ("CSV must contain fields '" +:+ x_field +:+ "' and '" +:+ y_field +:+ "'")) ;;
      raise (Exc ValueError ("CSV must contain fields '" +:+ x_field +:+ "' and '" +:+ y_field +:+ "'"))
    else ret tt) ;;
  (* Create the point feature class in WGS 1984 *)
  let temp_fc_wgs84 := "in_memory\temp_fc_wgs84" in
  tool h 37 (XYTableToPoint temp_table temp_fc_wgs84 x_field y_field "" wgs84) ;;
  (* Verify if the DEM file exists and is a valid raster *)
  dem_exists <- tool h 40 (Exists dem_path) ;;
  (if negb dem_exists then
     emit (AddError ("DEM file at '" +:+ dem_path +:+ "' does not exist.")) ;;
     raise (Exc ValueError ("DEM file at '" +:+ dem_path +:+ "' does not exist."))
   else ret tt) ;;
  dem_desc <- tool h 43 (Describe dem_path) ;;
  (if negb (String.eqb (dataType dem_desc) "RasterDataset") then
     emit (AddError ("The file at '" +:+ dem_path +:+ "' is not a valid raster dataset.")) ;;
     raise (Exc ValueError ("The file at '" +:+ dem_path +:+ "' is not a valid raster dataset."))
   else ret tt) ;;
  (* Get the spatial reference of the DEM raster *)
  dem_desc' <- tool h 48 (Describe dem_path) ;;
  let dem_sr := spatialReference dem_desc' in
  (* Project the point feature class to the DEM raster's spatial reference *)
  let output_fc_path := os_path_join h output_gdb output_fc in
  tool h 52 (Project temp_fc_wgs84 output_fc_path dem_sr) ;;
  (* Determine the extent of the points *)
  fc_desc <- tool h 55 (Describe output_fc_path) ;;
  let extent_ := extent fc_desc in
  let xmin := XMin extent_ in
  let ymin := YMin extent_ in
  let xmax := XMax extent_ in
  let ymax := YMax extent_ in
  (* Buffer the extent slightly to ensure overlap *)
  let buffer := 200000%float in
  let xmin := PrimFloat.sub xmin buffer in
  let ymin := PrimFloat.sub ymin buffer in
  let xmax := PrimFloat.add xmax buffer in
  let ymax := PrimFloat.add ymax buffer in
  (* Get the extent of the DEM raster *)
  dem_desc'' <- tool h 66 (Describe dem_path) ;;
  let dem_extent := extent dem_desc'' in
  emit (AddMessage ("Points extent: xmin=" +:+ float_str h xmin +:+ ", ymin=" +:+ float_str h ymin
                    +:+ ", xmax=" +:+ float_str h xmax +:+ ", ymax=" +:+ float_str h ymax)) ;;
  emit (AddMessage ("DEM extent: xmin=" +:+ float_str h (XMin dem_extent)
                    +:+ ", ymin=" +:+ float_str h (YMin dem_extent)
                    +:+ ", xmax=" +:+ float_str h (XMax dem_extent)
                    +:+ ", ymax=" +:+ float_str h (YMax dem_extent))) ;;
  (* Check if the point extent overlaps the DEM extent *)
  (if gt xmin (XMax dem_extent) || lt xmax (XMin dem_extent)
      || gt ymin (YMax dem_extent) || lt ymax (YMin dem_extent) then
     emit (AddError "The extent of the points does not overlap with the extent of the DEM raster.") ;;
     raise (Exc ValueError "The extent of the points does not overlap with the extent of the DEM raster.")
   else ret tt) ;;
  (* Clip the DEM to the extent of the points and log the operation *)
  try_except
    (tool h 77 (Clip dem_path
                  (float_str h xmin +:+ " " +:+ float_str h ymin +:+ " "
                   +:+ float_str h xmax +:+ " " +:+ float_str h ymax)
                  clipped_dem "" "" "ClippingGeometry" "MAINTAIN_EXTENT") ;;
     emit (AddMessage ("DEM clipped successfully to the extent of the points and saved as '"
                       +:+ clipped_dem +:+ "'")))
    [(is_Exception, fun e =>
        emit (AddError ("Failed to clip DEM: " +:+ exc_str e)) ;;
        raise e)] ;;
  (* Clean up in-memory table and feature classes *)
  tool h 84 (Delete_management temp_table) ;;
  tool h 85 (Delete_management temp_fc_wgs84) ;;
  (* Set the output parameters *)
  tool h 88 (SetParameterAsText 2 output_fc_path) ;;
  tool h 89 (SetParameterAsText 4 clipped_dem) ;;
  emit (AddMessage ("Point feature class '" +:+ output_fc +:+ "' created in '" +:+ output_gdb
                    +:+ "' with spatial reference matching DEM raster")).

End Script.
End clip_dem.

(** ** ArthurGEOG567_Final.py

    The script is one [try] block after the parameter reads; its body is cut
    here along the script's own comment headings. *)

Module ArthurGEOG567_Final.
Section Script.
Variable h : host.

Definition temp_table : string := "in_memory\temp_table".
Definition temp_fc_wgs84 : string := "in_memory\temp_fc_wgs84".
Definition projected_dem : string := "in_memory\projected_dem".
Definition x_field : string := "Longitude".
Definition y_field : string := "Latitude".

(** Lines 18-35: the CSV becomes a table, then a WGS 1984 point feature class. *)
Definition import_points (input_csv : string) (wgs84 : SpatialRef) : M unit :=
  tool h 20 (TableToTable_conversion input_csv "in_memory" "temp_table") ;;
  (* Check if the required fields exist in the CSV *)
  fields <- tool h 27 (ListFields temp_table) ;;
  let field_names := map field_name fields in
  for_ [x_field; y_field] (fun field =>
    if negb (py_in field field_names) then
      emit (AddError ("CSV must contain fields '" +:+ x_field +:+ "' and '" +:+ y_field +:+ "'")) ;;
      raise (Exc ValueError ("CSV must contain fields '" +:+ x_field +:+ "' and '" +:+ y_field +:+ "'"))
    else ret tt) ;;
  (* Create the point feature class in WGS 1984 *)
  tool h 35 (XYTableToPoint temp_table temp_fc_wgs84 x_field y_field "" wgs84).

(** Lines 37-43: verify that the DEM exists and is a raster. *)
Definition verify_dem (dem_path : string) : M unit :=
  dem_exists <- tool h 38 (Exists dem_path) ;;
  (if negb dem_exists then
     emit (AddError ("DEM file at '" +:+ dem_path +:+ "' does not exist.")) ;;
     raise (Exc ValueError ("DEM file at '" +:+ dem_path +:+ "' does not exist."))
   else ret tt) ;;
  dem_desc <- tool h 41 (Describe dem_path) ;;
  if negb (String.eqb (dataType dem_desc) "RasterDataset") then
    emit (AddError ("The file at '" +:+ dem_path +:+ "' is not a valid raster dataset.")) ;;
    raise (Exc ValueError ("The file at '" +:+ dem_path +:+ "' is not a valid raster dataset."))
  else ret tt.

(** Lines 45-78: project points and DEM to Alberta 3TM 114, clip the DEM to
    the buffered extent of the points. *)
Definition project_and_clip (output_fc_path dem_path clipped_dem : string)
    (alberta_3tm : SpatialRef) : M unit :=
  tool h 47 (Project temp_fc_wgs84 output_fc_path alberta_3tm) ;;
  emit (AddMessage "Projected point feature class to Alberta 3TM 114 NAD 83") ;;
  tool h 52 (ProjectRaster dem_path projected_dem alberta_3tm) ;;
  emit (AddMessage "Projected DEM to Alberta 3TM 114") ;;
  (* Determine the extent of the points *)
  fc_desc <- tool h 57 (Describe output_fc_path) ;;
  let extent_ := extent fc_desc in
  let xmin := XMin extent_ in
  let ymin := YMin extent_ in
  let xmax := XMax extent_ in
  let ymax := YMax extent_ in
  (* Buffer the extent slightly to ensure overlap *)
  let buffer := 5000%float in
  let xmin := PrimFloat.sub xmin buffer in
  let ymin := PrimFloat.sub ymin buffer in
  let xmax := PrimFloat.add xmax buffer in
  let ymax := PrimFloat.add ymax buffer in
  (* Clip the DEM using the buffered extent *)
  emit (AddMessage "Clipping DEM to the extent of points...") ;;
  tool h 69 (Clip projected_dem
               (float_str h xmin +:+ " " +:+ float_str h ymin +:+ " "
                +:+ float_str h xmax +:+ " " +:+ float_str h ymax)
               clipped_dem "#" "#" "NONE" "MAINTAIN_EXTENT") ;;
  emit (AddMessage ("Clipped DEM saved to " +:+ clipped_dem)).

(** Lines 80-85: output raster paths. *)
Definition slope_raster (output_gdb output_fc : string) : string :=
  os_path_join h output_gdb (output_fc +:+ "_slope").
Definition aspect_raster (output_gdb output_fc : string) : string :=
  os_path_join h output_gdb (output_fc +:+ "_aspect").
Definition curvature_raster (output_gdb output_fc : string) : string :=
  os_path_join h output_gdb (output_fc +:+ "_curvature").
Definition hillshade_raster (output_gdb output_fc : string) : string :=
  os_path_join h output_gdb (output_fc +:+ "_hillshade").

(** Lines 87-105: slope, aspect, curvature and hillshade of the clipped DEM. *)
Definition topographic_layers (output_gdb output_fc clipped_dem : string) : M unit :=
  emit (AddMessage "Calculating slope percent...") ;;
  slope <- tool h 89 (Slope clipped_dem "PERCENT_RISE") ;;
  tool h 89 (Raster_save slope (slope_raster output_gdb output_fc)) ;;
  emit (AddMessage ("Slope percent raster saved to " +:+ slope_raster output_gdb output_fc)) ;;
  emit (AddMessage "Calculating aspect...") ;;
  aspect <- tool h 94 (Aspect clipped_dem) ;;
  tool h 94 (Raster_save aspect (aspect_raster output_gdb output_fc)) ;;
  emit (AddMessage ("Aspect raster saved to " +:+ aspect_raster output_gdb output_fc)) ;;
  emit (AddMessage "Calculating slope curvature...") ;;
  curvature <- tool h 99 (Curvature clipped_dem) ;;
  tool h 99 (Raster_save curvature (curvature_raster output_gdb output_fc)) ;;
  emit (AddMessage ("Slope curvature raster saved to " +:+ curvature_raster output_gdb output_fc)) ;;
  emit (AddMessage "Generating hillshade...") ;;
  hillshade <- tool h 104 (Hillshade clipped_dem 315 45) ;;
  tool h 104 (Raster_save hillshade (hillshade_raster output_gdb output_fc)) ;;
  emit (AddMessage ("Hillshade raster saved to " +:+ hillshade_raster output_gdb output_fc)).

(** Lines 107-116: extract raster values to points. *)
Definition extract_values (output_gdb output_fc output_fc_path clipped_dem : string) : M unit :=
  emit (AddMessage "Extracting raster values to points...") ;;
  let extract_rasters :=
    [ (clipped_dem, "Elevation");
      (slope_raster output_gdb output_fc, "Slope");
      (aspect_raster output_gdb output_fc, "Aspect");
      (curvature_raster output_gdb output_fc, "Curvature") ] in
  tool h 115 (ExtractMultiValuesToPoints output_fc_path extract_rasters "NONE") ;;
  emit (AddMessage ("Raster values extracted to points feature class '" +:+ output_fc_path +:+ "'")).

(** What lines 118-157 leave in the script's variables. *)
Record layers := {
  the_map : Map_;
  hillshade_layer : option Layer;
  slope_layer : option Layer;
  aspect_layer : option Layer;
  curvature_layer : option Layer;
  elevation_layer : option Layer
}.

(** Lines 118-157: add the rasters and the points to the current map. *)
Definition add_layers (output_gdb output_fc output_fc_path clipped_dem : string) : M layers :=
  aprx <- tool h 119 (ArcGISProject "CURRENT") ;;
  m <- tool h 120 (activeMap aprx) ;;
  hillshade_layer <- tool h 123 (addDataFromPath m (hillshade_raster output_gdb output_fc)) ;;
  (if truthy hillshade_layer then emit (AddMessage "Hillshade raster added to the map.")
   else emit (AddError "Failed to add hillshade raster to the map.")) ;;
  slope_layer <- tool h 129 (addDataFromPath m (slope_raster output_gdb output_fc)) ;;
  (if truthy slope_layer then emit (AddMessage "Slope raster added to the map.")
   else emit (AddError "Failed to add slope raster to the map.")) ;;
  aspect_layer <- tool h 135 (addDataFromPath m (aspect_raster output_gdb output_fc)) ;;
  (if truthy aspect_layer then emit (AddMessage "Aspect raster added to the map.")
   else emit (AddError "Failed to add aspect raster to the map.")) ;;
  curvature_layer <- tool h 141 (addDataFromPath m (curvature_raster output_gdb output_fc)) ;;
  (if truthy curvature_layer then emit (AddMessage "Curvature raster added to the map.")
   else emit (AddError "Failed to add curvature raster to the map.")) ;;
  elevation_layer <- tool h 147 (addDataFromPath m clipped_dem) ;;
  (if truthy elevation_layer then emit (AddMessage "Elevation raster added to the map.")
   else emit (AddError "Failed to add elevation raster to the map.")) ;;
  output_fc_layer <- tool h 153 (addDataFromPath m output_fc_path) ;;
  (if truthy elevation_layer then emit (AddMessage "Point Feature Class added to the map.")
   else emit (AddError "Failed to add Point Feature Class to the map.")) ;;
  ret {| the_map := m;
         hillshade_layer := hillshade_layer;
         slope_layer := slope_layer;
         aspect_layer := aspect_layer;
         curvature_layer := curvature_layer;
         elevation_layer := elevation_layer |}.

(** Lines 159-179: hillshade on top, elevation at the bottom. *)
Definition order_layers (ls : layers) : M unit :=
  let m := the_map ls in
  try_except
    (match hillshade_layer ls, slope_layer ls, aspect_layer ls,
           curvature_layer ls, elevation_layer ls with
     | Some hillshade_layer, Some slope_layer, Some aspect_layer,
       Some curvature_layer, Some elevation_layer =>
         emit (print "Layers before moving:") ;;
         emit (print ("Hillshade layer: " +:+ layer_name hillshade_layer)) ;;
         emit (print ("Slope layer: " +:+ layer_name slope_layer)) ;;
         emit (print ("Aspect layer: " +:+ layer_name aspect_layer)) ;;
         emit (print ("Curvature layer: " +:+ layer_name curvature_layer)) ;;
         emit (print ("Elevation layer: " +:+ layer_name elevation_layer)) ;;
         tool h 169 (moveLayer m hillshade_layer (PInt 1)) ;;
         tool h 170 (moveLayer m slope_layer (PInt 2)) ;;
         tool h 171 (moveLayer m aspect_layer (PInt 3)) ;;
         tool h 172 (moveLayer m curvature_layer (PInt 4)) ;;
         tool h 173 (moveLayer m elevation_layer (PInt 5)) ;;
         emit (AddMessage "Rasters added to the map with hillshade at the top and elevation at the bottom")
     | _, _, _, _, _ =>
         emit (AddError "Failed to add one or more layers to the map.")
     end)
    [(is_Exception, fun e =>
        emit (AddError ("Error moving layers: " +:+ exc_str e)) ;;
        raise e)].

(** Lines 181-192: add the point feature class to the current map. *)
Definition add_point_layer (m : Map_) (output_fc_path : string) : M unit :=
  output_fc_layer <- tool h 182 (addDataFromPath m output_fc_path) ;;
  match output_fc_layer with
  | Some output_fc_layer =>
      emit (AddMessage "Point feature class added to the map.") ;;
      try_except
        (tool h 186 (moveLayer m output_fc_layer (PStr "TOP")) ;;
         emit (AddMessage "Point layer moved to the top of the map."))
        [(is_Exception, fun e =>
            emit (AddError ("Error moving the point layer to the top: " +:+ exc_str e)) ;;
            raise e)]
  | None =>
      emit (AddError "Failed to add point feature class to the map.")
  end.

(** Lines 194-197: print the current layer order. *)
Definition print_layer_order (m : Map_) : M unit :=
  emit (AddMessage "Current layer order:") ;;
  ls <- tool h 196 (listLayers m) ;;
  for_ (enumerate ls) (fun '(i, layer) =>
    emit (AddMessage (pretty i +:+ ": " +:+ layer_name layer))).

(** Lines 199-207: [arcpy.SomeTool_management(input, output)].  The callee
    [arcpy.SomeTool_management] is looked up first; [input] is the builtin;
    the script never binds [output], so evaluating the arguments raises
    [NameError] before anything is called. *)
Definition some_tool : M unit :=
  try_except
    (tool h 201 (ArcpyAttr "SomeTool_management") ;;
     raise (Exc NameError "name 'output' is not defined"))
    [(is_ExecuteError, fun _ =>
        msgs <- tool h 204 (GetMessages 2) ;;
        emit (print ("Error with tool execution: " +:+ msgs)));
     (is_Exception, fun e =>
        emit (print ("Unexpected error: " +:+ exc_str e)))].

(** Lines 209-213: clean up temporary datasets. *)
Definition clean_up : M unit :=
  tool h 210 (Delete_management temp_table) ;;
  tool h 211 (Delete_management temp_fc_wgs84) ;;
  tool h 212 (Delete_management projected_dem) ;;
  emit (AddMessage "Temporary datasets removed.").

(** Lines 215-220: output parameters and the closing message. *)
Definition set_outputs (output_gdb output_fc output_fc_path clipped_dem : string) : M unit :=
  tool h 216 (SetParameterAsText 2 output_fc_path) ;;
  tool h 217 (SetParameterAsText 4 clipped_dem) ;;
  emit (AddMessage ("Point feature class '" +:+ output_fc +:+ "' created in '" +:+ output_gdb
                    +:+ "' with spatial reference Alberta 3TM 114 NAD 83")).

(** Lines 18-220: the body of the [try]. *)
Definition body (input_csv output_gdb output_fc dem_path clipped_dem : string)
    (wgs84 alberta_3tm : SpatialRef) : M unit :=
  import_points input_csv wgs84 ;;
  verify_dem dem_path ;;
  let output_fc_path := os_path_join h output_gdb output_fc in
  project_and_clip output_fc_path dem_path clipped_dem alberta_3tm ;;
  topographic_layers output_gdb output_fc clipped_dem ;;
  extract_values output_gdb output_fc output_fc_path clipped_dem ;;
  ls <- add_layers output_gdb output_fc output_fc_path clipped_dem ;;
  order_layers ls ;;
  add_point_layer (the_map ls) output_fc_path ;;
  print_layer_order (the_map ls) ;;
  some_tool ;;
  clean_up ;;
  set_outputs output_gdb output_fc output_fc_path clipped_dem.

Definition script : M unit :=
  input_csv <- tool h 5 (GetParameterAsText 0) ;;
  output_gdb <- tool h 6 (GetParameterAsText 1) ;;
  output_fc <- tool h 7 (GetParameterAsText 2) ;;
  dem_path <- tool h 8 (GetParameterAsText 3) ;;
  clipped_dem <- tool h 9 (GetParameterAsText 4) ;;
  wgs84 <- tool h 12 (SpatialReference 4326) ;;
  alberta_3tm <- tool h 15 (SpatialReference 3776) ;;
  try_except
    (body input_csv output_gdb output_fc dem_path clipped_dem wgs84 alberta_3tm)
    [(is_Exception, fun e =>
        emit (AddError ("Script failed with error: " +:+ exc_str e)) ;;
        raise e)].

End Script.
End ArthurGEOG567_Final.

(** ** Vocabulary of the statements *)

(** The axis-aligned bounding-box test as the specification words it:
    [A] and [B] are non-overlapping when
    [A.xmin > B.xmax or A.xmax < B.xmin or A.ymin > B.ymax or A.ymax < B.ymin]. *)
Definition aabb_disjoint (A B : Extent) : bool :=
  gt (XMin A) (XMax B) || lt (XMax A) (XMin B)
  || gt (YMin A) (YMax B) || lt (YMax A) (YMin B).

(** The specification's expanded rectangle:
    [(xmin - m, ymin - m, xmax + m, ymax + m)]. *)
Definition expanded (m : float) (R : Extent) : Extent :=
  {| XMin := PrimFloat.sub (XMin R) m; YMin := PrimFloat.sub (YMin R) m;
     XMax := PrimFloat.add (XMax R) m; YMax := PrimFloat.add (YMax R) m |}.

(** The envelope string ["xmin ymin xmax ymax"] handed to [Clip]. *)
Definition envelope (h : host) (R : Extent) : string :=
  float_str h (XMin R) +:+ " " +:+ float_str h (YMin R) +:+ " "
  +:+ float_str h (XMax R) +:+ " " +:+ float_str h (YMax R).

Definition overlap_msg : string :=
  "The extent of the points does not overlap with the extent of the DEM raster.".

(** A run is flagged as non-overlapping: the error is reported to the user
    and raised. *)
Definition flagged_disjoint (run : M unit) : Prop :=
  AddError overlap_msg ∈ trace run ∧ outcome run = Raise (Exc ValueError overlap_msg).

Definition missing_fields_msg : string :=
  "CSV must contain fields 'Longitude' and 'Latitude'".

Definition dem_missing_msg (dem_path : string) : string :=
  "DEM file at '" +:+ dem_path +:+ "' does not exist.".

Definition dem_not_raster_msg (dem_path : string) : string :=
  "The file at '" +:+ dem_path +:+ "' is not a valid raster dataset.".

(** The clipping and derivation steps. *)
Definition is_clip_or_derivation (c : call) : bool :=
  match c with
  | Clip _ _ _ _ _ _ _ | Slope _ _ | Aspect _ | Curvature _ | Hillshade _ _ _ => true
  | _ => false
  end.

(** What ArthurGEOG567_Final.py hands to [ExtractMultiValuesToPoints]
    (lines 109-114): the rasters to sample, each with the field that
    receives its values. *)
Definition extract_rasters (h : host) (output_gdb output_fc clipped_dem : string)
    : list (string * string) :=
  [ (clipped_dem, "Elevation");
    (ArthurGEOG567_Final.slope_raster h output_gdb output_fc, "Slope");
    (ArthurGEOG567_Final.aspect_raster h output_gdb output_fc, "Aspect");
    (ArthurGEOG567_Final.curvature_raster h output_gdb output_fc, "Curvature") ].

(** In the trace [t] of a computation that ended as [r], every exception
    raised by a toolbox call, but for the one of line 201 of
    ArthurGEOG567_Final.py, is the exception the computation ended with. *)
Definition faithful {A} (t : list event) (r : result A) : Prop :=
  forall l c e, Call l c (inl e) ∈ t -> l <> 201 -> r = Raise e.

(** *** Selecting events of a trace *)

Definition select (keep : event -> bool) (t : list event) : list event :=
  List.filter keep t.

(** The calls made at a source line. *)
Definition at_line (line : nat) (ev : event) : bool :=
  match ev with
  | Call l _ _ => l =? line
  | Log _ _ => false
  end.

(** The lines of text sent to a channel. *)
Definition on_channel (ch : channel) (ev : event) : bool :=
  match ev with
  | Log ch' _ => bool_decide (ch' = ch)
  | Call _ _ _ => false
  end.

Definition is_call (ev : event) : bool :=
  match ev with
  | Call _ _ _ => true
  | Log _ _ => false
  end.

(** The toolbox calls that raised. *)
Definition is_failure (ev : event) : bool :=
  match ev with
  | Call _ _ (inl _) => true
  | _ => false
  end.

Definition is_hillshade (ev : event) : bool :=
  match ev with
  | Call _ (Hillshade _ _ _) _ => true
  | _ => false
  end.


(** A stretch of trace all of whose events pass a test, and a computation
    that emits only such events. *)
Definition only (ok : event -> bool) (t : list event) : Prop :=
  Forall (fun ev => ok ev = true) t.

Definition emits_only {A} (ok : event -> bool) (m : M A) : Prop :=
  only ok (trace m).

Definition is_message (ev : event) : bool :=
  match ev with
  | Log Message _ => true
  | _ => false
  end.

(** *** Datasets

    What the toolbox documents of the calls the scripts make: a call that
    returns normally has written its output dataset, and
    [Delete_management] has removed its argument.  A call that raised is
    taken to have changed nothing. *)

Definition created (c : call) : gset string :=
  match c with
  | TableToTable_conversion _ out_path out_name => {[ out_path +:+ "\" +:+ out_name ]}
  | XYTableToPoint _ out_feature_class _ _ _ _ => {[ out_feature_class ]}
  | Project _ out_dataset _ => {[ out_dataset ]}
  | ProjectRaster _ out_raster _ => {[ out_raster ]}
  | Clip _ _ out_raster _ _ _ _ => {[ out_raster ]}
  | Raster_save _ name => {[ name ]}
  | _ => ∅
  end.

Definition deleted (c : call) : gset string :=
  match c with
  | Delete_management in_data => {[ in_data ]}
  | _ => ∅
  end.

Definition apply_event (ds : gset string) (ev : event) : gset string :=
  match ev with
  | Call _ c (inr _) => (ds ∪ created c) ∖ deleted c
  | _ => ds
  end.

(** The datasets that exist after the trace [t], from those in [init]. *)
Definition datasets (init : gset string) (t : list event) : gset string :=
  foldl apply_event init t.

(** *** Walking a script

    [wp m pre Q]: run [m] after the events [pre]; [Q] holds of the trace so
    far and of how [m] ended. *)
Definition wp {A} (m : M A) (pre : list event) (Q : list event -> result A -> Prop) : Prop :=
  Q (pre ++ trace m) (outcome m).

(** *** Concrete hosts

    A scenario fixes what the toolbox answers; everything not named in it
    succeeds.  The looked-up [arcpy.SomeTool_management] does not exist, as
    in the real toolbox. *)

Definition rect (xmin ymin xmax ymax : float) : Extent :=
  {| XMin := xmin; YMin := ymin; XMax := xmax; YMax := ymax |}.

Record scenario := {
  sc_fields : list string;         (* the columns of the CSV *)
  sc_points : Extent;              (* extent of the projected points *)
  sc_dem : Extent;                 (* extent of the DEM *)
  sc_dem_exists : bool;
  sc_dem_type : string;
  sc_point_layer : bool;           (* line 153 of the final script adds a layer *)
  sc_clip : option exc             (* what [Clip] raises, if it does *)
}.

Definition scenario_toolbox (sc : scenario) (line : nat) (c : call) : exc + resp c :=
  match c return exc + resp c with
  | GetParameterAsText 0 => inr "C:\data\points.csv"
  | GetParameterAsText 1 => inr "C:\data\out.gdb"
  | GetParameterAsText 2 => inr "sites"
  | GetParameterAsText 3 => inr "C:\data\dem.tif"
  | GetParameterAsText _ => inr "C:\data\clipped.tif"
  | GetMessages _ => inr "ERROR 000000"
  | SpatialReference wkid => inr {| factoryCode := wkid |}
  | ListFields _ => inr (map Build_Field (sc_fields sc))
  | Exists _ => inr (sc_dem_exists sc)
  | Describe p =>
      inr {| dataType := sc_dem_type sc;
             spatialReference := {| factoryCode := 3776 |};
             extent := if bool_decide (p = "C:\data\dem.tif") then sc_dem sc else sc_points sc |}
  | Slope _ _ => inr {| raster_id := 1 |}
  | Aspect _ => inr {| raster_id := 2 |}
  | Curvature _ => inr {| raster_id := 3 |}
  | Hillshade _ _ _ => inr {| raster_id := 4 |}
  | ArcGISProject _ => inr {| project_id := 0 |}
  | activeMap _ => inr {| map_id := 0 |}
  | addDataFromPath _ p =>
      if (line =? 153) && negb (sc_point_layer sc) then inr None
      else inr (Some {| layer_name := p |})
  | listLayers _ => inr [ {| layer_name := "sites" |}; {| layer_name := "sites_hillshade" |} ]
  | ArcpyAttr a => inl (Exc AttributeError ("module 'arcpy' has no attribute '" +:+ a +:+ "'"))
  | Clip _ _ _ _ _ _ _ =>
      match sc_clip sc with
      | Some e => inl e
      | None => inr tt
      end
  | TableToTable_conversion _ _ _ | XYTableToPoint _ _ _ _ _ _ | Project _ _ _
  | ProjectRaster _ _ _ | Delete_management _
  | SetParameterAsText _ _ | Raster_save _ _ | ExtractMultiValuesToPoints _ _ _
  | moveLayer _ _ _ => inr tt
  end.

Definition scenario_host (sc : scenario) : host :=
  {| toolbox := scenario_toolbox sc;
     os_path_join := fun a b => a +:+ "\" +:+ b;
     float_str := fun _ => "<float>" |}.

(** Everything succeeds: expanded points [(0, 0, 10, 10)] over a DEM at
    [(5, 5, 15, 15)]. *)
Definition happy : scenario :=
  {| sc_fields := ["Longitude"; "Latitude"];
     sc_points := rect 200000 200000 (-199990) (-199990);
     sc_dem := rect 5 5 15 15;
     sc_dem_exists := true;
     sc_dem_type := "RasterDataset";
     sc_point_layer := true;
     sc_clip := None |}.

(** The DEM lies at [(20, 20, 30, 30)] instead. *)
Definition far_dem : scenario :=
  {| sc_fields := sc_fields happy; sc_points := sc_points happy;
     sc_dem := rect 20 20 30 30;
     sc_dem_exists := true; sc_dem_type := "RasterDataset"; sc_point_layer := true;
     sc_clip := None |}.

(** The CSV spells its columns [longitude] and [LATITUDE]. *)
Definition other_case : scenario :=
  {| sc_fields := ["longitude"; "LATITUDE"];
     sc_points := sc_points happy; sc_dem := sc_dem happy;
     sc_dem_exists := true; sc_dem_type := "RasterDataset"; sc_point_layer := true;
     sc_clip := None |}.

(** The CSV has no longitude column. *)
Definition no_longitude : scenario :=
  {| sc_fields := ["Name"; "Latitude"];
     sc_points := sc_points happy; sc_dem := sc_dem happy;
     sc_dem_exists := true; sc_dem_type := "RasterDataset"; sc_point_layer := true;
     sc_clip := None |}.

(** The DEM path names nothing. *)
Definition no_dem : scenario :=
  {| sc_fields := sc_fields happy; sc_points := sc_points happy; sc_dem := sc_dem happy;
     sc_dem_exists := false; sc_dem_type := "RasterDataset"; sc_point_layer := true;
     sc_clip := None |}.

(** The DEM path names a shapefile. *)
Definition dem_is_shapefile : scenario :=
  {| sc_fields := sc_fields happy; sc_points := sc_points happy; sc_dem := sc_dem happy;
     sc_dem_exists := true; sc_dem_type := "ShapeFile"; sc_point_layer := true;
     sc_clip := None |}.

(** The first attempt to add the points to the map returns no layer. *)
Definition point_layer_fails : scenario :=
  {| sc_fields := sc_fields happy; sc_points := sc_points happy; sc_dem := sc_dem happy;
     sc_dem_exists := true; sc_dem_type := "RasterDataset"; sc_point_layer := false;
     sc_clip := None |}.

(** The [Clip] tool fails. *)
Definition clip_error : exc := Exc ExecuteError "ERROR 999999: Error executing function.".

Definition clip_fails : scenario :=
  {| sc_fields := sc_fields happy; sc_points := sc_points happy; sc_dem := sc_dem happy;
     sc_dem_exists := true; sc_dem_type := "RasterDataset"; sc_point_layer := true;
     sc_clip := Some clip_error |}.

(** *** Further vocabulary *)

(** The report of the extent check of clip_dem.py. *)
Definition is_overlap_error (ev : event) : bool :=
  match ev with
  | Log Error s => String.eqb s overlap_msg
  | _ => false
  end.

Definition is_reprojection (ev : event) : bool :=
  match ev with
  | Call _ (ProjectRaster _ _ _) _ => true
  | _ => false
  end.

Definition is_delete (ev : event) : bool :=
  match ev with
  | Call _ (Delete_management _) _ => true
  | _ => false
  end.

(** The dataset a call writes, if any. *)
Definition output_of (c : call) : option string :=
  match c with
  | TableToTable_conversion _ out_path out_name => Some (out_path +:+ "\" +:+ out_name)
  | XYTableToPoint _ out_feature_class _ _ _ _ => Some out_feature_class
  | Project _ out_dataset _ => Some out_dataset
  | ProjectRaster _ out_raster _ => Some out_raster
  | Clip _ _ out_raster _ _ _ _ => Some out_raster
  | Raster_save _ name => Some name
  | _ => None
  end.

(** The surface derivatives of ArthurGEOG567_Final.py, and the raster a
    call derives one from. *)
Inductive derivative := SlopeOf | AspectOf | CurvatureOf | HillshadeOf.

Definition derivative_of (c : call) : option (derivative * string) :=
  match c with
  | Slope in_raster _ => Some (SlopeOf, in_raster)
  | Aspect in_raster => Some (AspectOf, in_raster)
  | Curvature in_raster => Some (CurvatureOf, in_raster)
  | Hillshade in_raster _ _ => Some (HillshadeOf, in_raster)
  | _ => None
  end.

Definition is_derivation (ev : event) : bool :=
  match ev with
  | Call _ c _ => bool_decide (is_Some (derivative_of c))
  | Log _ _ => false
  end.

(** The lines of ArthurGEOG567_Final.py that add a derived raster to the
    map, each with the line that derives and saves the raster. *)
Definition raster_layers : list (nat * (nat * derivative)) :=
  [ (123, (104, HillshadeOf)); (129, (89, SlopeOf));
    (135, (94, AspectOf)); (141, (99, CurvatureOf)) ].

(** The path ArthurGEOG567_Final.py saves a derivative under. *)
Definition raster_path (h : host) (output_gdb output_fc : string) (d : derivative) : string :=
  match d with
  | SlopeOf => ArthurGEOG567_Final.slope_raster h output_gdb output_fc
  | AspectOf => ArthurGEOG567_Final.aspect_raster h output_gdb output_fc
  | CurvatureOf => ArthurGEOG567_Final.curvature_raster h output_gdb output_fc
  | HillshadeOf => ArthurGEOG567_Final.hillshade_raster h output_gdb output_fc
  end.

Definition is_raster_layer (ev : event) : bool :=
  match ev with
  | Call l (addDataFromPath _ _) _ => bool_decide (l ∈ raster_layers.*1)
  | _ => false
  end.

(** The lines of ArthurGEOG567_Final.py that move a raster layer, each with
    the line that added the layer and the position it is moved to. *)
Definition layer_order : list (nat * (nat * Z)) :=
  [ (169, (123, 1%Z)); (170, (129, 2%Z)); (171, (135, 3%Z));
    (172, (141, 4%Z)); (173, (147, 5%Z)) ].

Definition is_raster_move (ev : event) : bool :=
  match ev with
  | Call l (moveLayer _ _ _) _ => bool_decide (l ∈ layer_order.*1)
  | _ => false
  end.

(** The lines that add a layer the reordering asks for. *)
Definition ordered_layer_lines : list nat := layer_order.*2.*1.

(** The variable of ArthurGEOG567_Final.py that holds the layer added on a
    line. *)
Definition layer_added (ls : ArthurGEOG567_Final.layers) (line : nat) : option Layer :=
  if line =? 123 then ArthurGEOG567_Final.hillshade_layer ls
  else if line =? 129 then ArthurGEOG567_Final.slope_layer ls
  else if line =? 135 then ArthurGEOG567_Final.aspect_layer ls
  else if line =? 141 then ArthurGEOG567_Final.curvature_layer ls
  else if line =? 147 then ArthurGEOG567_Final.elevation_layer ls
  else None.

(** An attempt to add one of those layers. *)
Definition is_ordered_layer (ev : event) : bool :=
  match ev with
  | Call l (addDataFromPath _ _) _ => bool_decide (l ∈ ordered_layer_lines)
  | _ => false
  end.

Definition reorder_failed_msg : string := "Failed to add one or more layers to the map.".

(** The calls of ArthurGEOG567_Final.py that sit in a [try] of their own
    inside the outer one, each with the text its handler puts before the
    exception. *)
Definition nested_handlers : list (nat * string) :=
  [ (169, "Error moving layers: "); (170, "Error moving layers: ");
    (171, "Error moving layers: "); (172, "Error moving layers: ");
    (173, "Error moving layers: ");
    (186, "Error moving the point layer to the top: ") ].

Definition is_nested (ev : event) : bool :=
  match ev with
  | Call l _ _ => bool_decide (l ∈ nested_handlers.*1)
  | Log _ _ => false
  end.

Definition is_output (ev : event) : bool :=
  match ev with
  | Call _ (SetParameterAsText _ _) _ => true
  | _ => false
  end.

(** The closing message of ArthurGEOG567_Final.py. *)
Definition closing_msg (output_gdb output_fc : string) : string :=
  "Point feature class '" +:+ output_fc +:+ "' created in '" +:+ output_gdb
  +:+ "' with spatial reference Alberta 3TM 114 NAD 83".

(** The line of the layer listing for the layer at index [i]. *)
Definition listing (i : nat) (layer : Layer) : event :=
  AddMessage (pretty i +:+ ": " +:+ layer_name layer).

(** The reads of parameters and spatial references that
    ArthurGEOG567_Final.py makes before its [try]. *)
Definition is_early (ev : event) : bool :=
  match ev with
  | Call l _ _ => l <=? 15
  | Log _ _ => false
  end.

Definition is_log (ev : event) : bool := negb (is_call ev).

(** A host that answers as the scenario [sc] does, but for the calls of
    line [line], which raise [e]. *)
Definition failing_at (line : nat) (e : exc) (sc : scenario) : host :=
  {| toolbox := fun l c => if l =? line then inl e else scenario_toolbox sc l c;
     os_path_join := os_path_join (scenario_host sc);
     float_str := float_str (scenario_host sc) |}.

(** A host that answers as the scenario [sc] does, but for the attempt to
    add a layer on line [line], which returns no layer. *)
Definition without_layer (line : nat) (sc : scenario) : host :=
  {| toolbox := fun l c =>
       match c return exc + resp c with
       | addDataFromPath m p =>
           if l =? line then inr None else scenario_toolbox sc l (addDataFromPath m p)
       | c' => scenario_toolbox sc l c'
       end;
     os_path_join := os_path_join (scenario_host sc);
     float_str := float_str (scenario_host sc) |}.

Definition locked : exc := Exc ExecuteError "ERROR 000464: Cannot get exclusive schema lock.".

(** *** Hosts that print floats as Python does

    [str] of a float that is a whole number below [10^16] in magnitude is
    its decimal digits followed by [.0]; the runs written out below meet no
    other float, and the digits of the others are not computed here. *)

Definition whole (m : positive) (e : Z) : option N :=
  if (0 <=? e)%Z then Some (N.pos m * 2 ^ Z.to_N e)%N
  else
    let d := (2 ^ Z.to_N (- e))%N in
    if (N.pos m mod d =? 0)%N then Some (N.pos m / d)%N else None.

Definition python_str (x : float) : string :=
  match Prim2SF x with
  | S754_zero s => (if s then "-" else "") +:+ "0.0"
  | S754_infinity s => (if s then "-" else "") +:+ "inf"
  | S754_nan => "nan"
  | S754_finite s m e =>
      match whole m e with
      | Some n =>
          if (n <? 10 ^ 16)%N then (if s then "-" else "") +:+ pretty n +:+ ".0" else "?"
      | None => "?"
      end
  end.

Definition python_host (sc : scenario) : host :=
  {| toolbox := scenario_toolbox sc;
     os_path_join := os_path_join (scenario_host sc);
     float_str := python_str |}.

(** Points within [(0, 0, 10, 10)], a DEM over [(5, 5, 15, 15)];
    everything succeeds. *)
Definition survey : scenario :=
  {| sc_fields := ["Longitude"; "Latitude"];
     sc_points := rect 0 0 10 10;
     sc_dem := rect 5 5 15 15;
     sc_dem_exists := true;
     sc_dem_type := "RasterDataset";
     sc_point_layer := true;
     sc_clip := None |}.

(** The same points, a DEM far away, over
    [(300000, 300000, 300010, 300010)]. *)
Definition survey_far : scenario :=
  {| sc_fields := sc_fields survey; sc_points := sc_points survey;
     sc_dem := rect 300000 300000 300010 300010;
     sc_dem_exists := true; sc_dem_type := "RasterDataset"; sc_point_layer := true;
     sc_clip := None |}.

(** The message of line 67 of clip_dem.py for the rectangle [R]. *)
Definition points_extent_msg (h : host) (R : Extent) : string :=
  "Points extent: xmin=" +:+ float_str h (XMin R) +:+ ", ymin=" +:+ float_str h (YMin R)
  +:+ ", xmax=" +:+ float_str h (XMax R) +:+ ", ymax=" +:+ float_str h (YMax R).


(** Control-C: a [BaseException] that is no [Exception]. *)
Definition interrupt : exc := Exc KeyboardInterrupt "".

(** * Theorems *)

(** ** The monad *)

Lemma trace_bind {A B} (m : M A) (k : A -> M B) :
  trace (x <- m ;; k x) =
  trace m ++ match outcome m with Ok a => trace (k a) | Raise _ => [] end.
Proof.
  destruct m as [t [a|e]]; cbn; [|by rewrite app_nil_r].
  by destruct (k a).
Qed.

Lemma outcome_bind {A B} (m : M A) (k : A -> M B) :
  outcome (x <- m ;; k x) =
  match outcome m with Ok a => outcome (k a) | Raise e => Raise e end.
Proof. destruct m as [t [a|e]]; cbn; [|done]. by destruct (k a). Qed.

(** ** Symbolic execution

    The rules below follow the syntax of a script, so a property of every
    run is proved by walking the script once and splitting on each answer
    of the toolbox. *)

Lemma wp_run {A} (m : M A) (Q : list event -> result A -> Prop) :
  wp m [] Q -> Q (trace m) (outcome m).
Proof. done. Qed.

Lemma wp_ret {A} (a : A) pre (Q : list event -> result A -> Prop) :
  Q pre (Ok a) -> wp (ret a) pre Q.
Proof. unfold wp; cbn. by rewrite app_nil_r. Qed.

Lemma wp_raise {A} (e : exc) pre (Q : list event -> result A -> Prop) :
  Q pre (Raise e) -> wp (raise e) pre Q.
Proof. unfold wp; cbn. by rewrite app_nil_r. Qed.

Lemma wp_emit ev pre (Q : list event -> result unit -> Prop) :
  Q (pre ++ [ev]) (Ok tt) -> wp (emit ev) pre Q.
Proof. done. Qed.

Lemma wp_bind {A B} (m : M A) (k : A -> M B) pre (Q : list event -> result B -> Prop) :
  wp m pre (fun t r => match r with Ok a => wp (k a) t Q | Raise e => Q t (Raise e) end) ->
  wp (x <- m ;; k x) pre Q.
Proof.
  unfold wp. rewrite trace_bind, outcome_bind.
  destruct (outcome m); [by rewrite app_assoc | by rewrite app_nil_r].
Qed.

Lemma wp_tool h line c pre (Q : list event -> result (resp c) -> Prop) :
  (forall e, toolbox h line c = inl e -> Q (pre ++ [Call line c (inl e)]) (Raise e)) ->
  (forall r, toolbox h line c = inr r -> Q (pre ++ [Call line c (inr (to_value c r))]) (Ok r)) ->
  wp (tool h line c) pre Q.
Proof. unfold wp, tool. intros He Hr. destruct (toolbox h line c); cbn; auto. Qed.

Lemma wp_try_except {A} (body : M A) hs pre (Q : list event -> result A -> Prop) :
  wp body pre (fun t r =>
    match r with Ok a => Q t (Ok a) | Raise e => wp (dispatch hs e) t Q end) ->
  wp (try_except body hs) pre Q.
Proof.
  unfold wp, try_except. destruct body as [t [a|e]]; cbn; [done|].
  destruct (dispatch hs e); cbn. by rewrite app_assoc.
Qed.

(** A conditional that only chooses which line to log does not split the
    walk. *)
Lemma wp_if_emit (b : bool) ch1 s1 ch2 s2 pre (Q : list event -> result unit -> Prop) :
  Q (pre ++ [Log (if b then ch1 else ch2) (if b then s1 else s2)]) (Ok tt) ->
  wp (if b then emit (Log ch1 s1) else emit (Log ch2 s2)) pre Q.
Proof. by destruct b. Qed.

(** A loop whose body only sends one message adds a stretch of messages. *)
Lemma for_messages {A} (l : list A) (body : A -> M unit) :
  (forall x, exists s, body x = emit (AddMessage s)) ->
  only is_message (trace (for_ l body)) /\ outcome (for_ l body) = Ok tt.
Proof.
  intros Hbody. induction l as [|x l [IHt IHo]]; cbn; [by split; [constructor|]|].
  destruct (Hbody x) as [s ->].
  rewrite trace_bind, outcome_bind. cbn. split; [|done].
  by constructor.
Qed.

Lemma wp_for_messages {A} (l : list A) (body : A -> M unit) pre
    (Q : list event -> result unit -> Prop) :
  (forall x, exists s, body x = emit (AddMessage s)) ->
  (forall chunk, only is_message chunk -> Q (pre ++ chunk) (Ok tt)) ->
  wp (for_ l body) pre Q.
Proof.
  intros Hbody HQ. destruct (for_messages l body Hbody) as [Ht Ho].
  unfold wp. rewrite Ho. by apply HQ.
Qed.

(** Leaving a part of the script unwalked: all that is kept of it is that
    its events pass [ok]. *)
Lemma wp_cut {A} (ok : event -> bool) (m : M A) pre (Q : list event -> result A -> Prop) :
  emits_only ok m ->
  (forall chunk r, only ok chunk -> Q (pre ++ chunk) r) ->
  wp m pre Q.
Proof. intros Hm HQ. by apply HQ. Qed.

(** The same with any property of the part's own trace and outcome, proved
    by walking that part alone. *)
Lemma wp_spec {A} (spec : list event -> result A -> Prop) (m : M A) pre
    (Q : list event -> result A -> Prop) :
  wp m [] spec ->
  (forall chunk r, spec chunk r -> Q (pre ++ chunk) r) ->
  wp m pre Q.
Proof. intros Hm HQ. by apply HQ. Qed.

Ltac wp_head m :=
  lazymatch m with
  | ?f _ => wp_head f
  | _ => m
  end.

(** A test that computes to [true] or [false] is decided; any other is
    split on. *)
Ltac split_test b :=
  let b' := eval vm_compute in b in
  lazymatch b' with
  | true => change b with true
  | false => change b with false
  | _ => destruct b eqn:?
  end.

Ltac wp_step :=
  lazymatch goal with
  | |- wp (bind _ _) _ _ => apply wp_bind
  | |- wp (tool ?h ?l ?c) ?pre ?Q => refine (wp_tool h l c pre Q _ _); intros ? ?
  | |- wp (emit _) _ _ => apply wp_emit
  | |- wp (ret _) _ _ => apply wp_ret
  | |- wp (raise _) _ _ => apply wp_raise
  | |- wp (try_except _ _) _ _ => apply wp_try_except
  | |- wp (if _ then emit _ else emit _) _ _ => apply wp_if_emit
  | |- wp (if ?b then _ else _) _ _ => split_test b
  | |- wp (match ?o with _ => _ end) _ _ => destruct o eqn:?
  | |- wp (dispatch _ _) _ _ => cbn [dispatch]
  | |- wp (for_ (_ :: _) _) _ _ => cbn [for_]
  | |- wp (for_ [] _) _ _ => cbn [for_]
  | |- wp (for_ _ _) _ _ =>
      apply wp_for_messages; [intros [? ?]; eexists; reflexivity | intros ? ?]
  | |- wp ?m _ _ => let f := wp_head m in unfold f
  end; cbv beta iota zeta.

Ltac wp_walk := repeat wp_step.

(** Walk until [stop] recognises the goal. *)
Ltac wp_walk_until stop := repeat (tryif stop then fail else wp_step).

(** The goal is about to execute line [l]. *)
Ltac at_tool l :=
  idtac;
  lazymatch goal with
  | |- wp (bind (tool _ l _) _) _ _ => idtac
  | |- wp (tool _ l _) _ _ => idtac
  end.

(** The goal is about to execute the block [f] of the script. *)
Ltac at_block f :=
  idtac;
  lazymatch goal with
  | |- wp (bind ?m _) _ _ => let g := wp_head m in constr_eq g f
  | |- wp ?m _ _ => let g := wp_head m in constr_eq g f
  end.

(** ** Computations that emit only events of a kind *)

Lemma only_app ok t1 t2 : only ok t1 -> only ok t2 -> only ok (t1 ++ t2).
Proof. apply Forall_app_2. Qed.

Lemma only_weaken (ok ok' : event -> bool) t :
  (forall ev, ok ev = true -> ok' ev = true) -> only ok t -> only ok' t.
Proof. intros Himp Ht. eapply Forall_impl; [exact Ht | auto]. Qed.

Lemma emits_only_ret {A} ok (a : A) : emits_only ok (ret a).
Proof. constructor. Qed.

Lemma emits_only_raise {A} ok e : emits_only ok (@raise A e).
Proof. constructor. Qed.

Lemma emits_only_emit ok ev : ok ev = true -> emits_only ok (emit ev).
Proof. by repeat constructor. Qed.

Lemma emits_only_tool ok h line c :
  (forall r, ok (Call line c r) = true) -> emits_only ok (tool h line c).
Proof.
  intros Hok. unfold emits_only, tool.
  destruct (toolbox h line c); by repeat constructor.
Qed.

Lemma emits_only_bind {A B} ok (m : M A) (k : A -> M B) :
  emits_only ok m -> (forall a, emits_only ok (k a)) -> emits_only ok (x <- m ;; k x).
Proof.
  unfold emits_only. rewrite trace_bind. intros Hm Hk.
  apply only_app; [done|]. destruct (outcome m); [apply Hk | constructor].
Qed.

Lemma emits_only_try_except {A} ok (body : M A) hs :
  emits_only ok body -> (forall e, emits_only ok (dispatch hs e)) ->
  emits_only ok (try_except body hs).
Proof.
  unfold emits_only, try_except. intros Hm Hh.
  destruct body as [t [a|e]]; cbn in *; [done|].
  specialize (Hh e). destruct (dispatch hs e); cbn in *. by apply only_app.
Qed.

Lemma emits_only_for_messages {A} ok (l : list A) (body : A -> M unit) :
  (forall x, exists s, body x = emit (AddMessage s)) ->
  (forall s, ok (AddMessage s) = true) ->
  emits_only ok (for_ l body).
Proof.
  intros Hbody Hok. destruct (for_messages l body Hbody) as [Ht _].
  eapply only_weaken; [|exact Ht]. by intros [l' c r|[] s].
Qed.

Ltac emits_step :=
  lazymatch goal with
  | |- emits_only _ (bind _ _) => apply emits_only_bind; [|intros ?]
  | |- emits_only ?ok (tool ?h ?l ?c) =>
      refine (emits_only_tool ok h l c _); intros ?; reflexivity
  | |- emits_only _ (emit _) => apply emits_only_emit; reflexivity
  | |- emits_only _ (ret _) => apply emits_only_ret
  | |- emits_only _ (raise _) => apply emits_only_raise
  | |- emits_only _ (try_except _ _) => apply emits_only_try_except; [|intros ?]
  | |- emits_only _ (if ?b then _ else _) => destruct b
  | |- emits_only _ (match ?o with _ => _ end) => destruct o
  | |- emits_only _ (dispatch _ _) => cbn [dispatch]
  | |- emits_only _ (for_ (_ :: _) _) => cbn [for_]
  | |- emits_only _ (for_ [] _) => cbn [for_]
  | |- emits_only _ (for_ _ _) =>
      apply emits_only_for_messages;
      [intros [? ?]; eexists; reflexivity | intros ?; reflexivity]
  | |- emits_only _ ?m => let f := wp_head m in unfold f
  end; cbv beta iota zeta.

Ltac emits_walk := repeat emits_step.

(** [wp_leave ok]: leave what is about to run unwalked, and walk on from
    where it ends. *)
Ltac at_handler :=
  lazymatch goal with
  | |- wp (dispatch _ _) _ _ => idtac
  end.

Ltac wp_leave ok :=
  apply (wp_cut ok);
  [ emits_walk
  | intros ? [?|?] ?; cbv beta iota; try (at_handler; wp_walk) ].

(** ** Selections *)

(** Membership of an event in a trace that is written out goes through a
    selection, which computes. *)
Lemma elem_of_select keep ev t :
  ev ∈ t -> keep ev = true -> ev ∈ select keep t.
Proof.
  intros Hin Hkeep. apply list_elem_of_In, filter_In.
  split; [by apply list_elem_of_In | done].
Qed.

Lemma select_app keep t1 t2 :
  select keep (t1 ++ t2) = select keep t1 ++ select keep t2.
Proof. apply List.filter_app. Qed.

Lemma select_only keep ok chunk :
  (forall ev, ok ev = true -> keep ev = false) -> only ok chunk -> select keep chunk = [].
Proof.
  intros Hkeep Hchunk. induction Hchunk as [|ev chunk Hev _ IH]; [done|].
  cbn. by rewrite (Hkeep ev Hev).
Qed.

Lemma select_frame_end keep ok pre chunk :
  only ok chunk -> (forall ev, ok ev = true -> keep ev = false) ->
  select keep (pre ++ chunk) = select keep pre.
Proof.
  intros Hchunk Hkeep.
  by rewrite !select_app, (select_only keep ok chunk), app_nil_r.
Qed.

(** Two tests exclude each other. *)
Ltac excludes :=
  let l := fresh "l" in
  let c := fresh "c" in
  let r := fresh "r" in
  let ch := fresh "ch" in
  intros [l c r|ch ?]; cbn;
  repeat match goal with |- context [?a =? ?b] => destruct (a =? b) end;
  cbn;
  first [ congruence
        | destruct r; cbn; congruence
        | destruct c; cbn; congruence
        | destruct ch; cbn; congruence ].

(** A trace that is written out but for stretches left unwalked: the
    selection is pushed down to the first of them. *)
Ltac has_chunk t :=
  match t with
  | context [_ ++ ?chunk] => is_var chunk
  end.

Ltac select_chunks H :=
  repeat match type of H with
  | context [select ?keep (?t ++ ?chunk)] =>
      is_var chunk;
      match goal with
      | Hc : only _ chunk |- _ => rewrite (select_frame_end keep _ t chunk Hc) in H by excludes
      end
  | context [select ?keep (?t ++ [?ev])] =>
      has_chunk t; rewrite (select_app keep t [ev]) in H
  end.

(** [select_in H keep]: from [H : ev ∈ t] to the few events of [t] that
    [keep] selects, each of which [ev] may be. *)
Ltac select_in H keep :=
  apply (elem_of_select keep) in H; [|reflexivity];
  select_chunks H;
  vm_compute in H;
  repeat match type of H with
  | list_elem_of _ (_ :: _) => apply elem_of_cons in H as [H|H]
  | _ ∈ _ :: _ => apply elem_of_cons in H as [H|H]
  | list_elem_of _ [] => by apply elem_of_nil in H
  | _ ∈ [] => by apply elem_of_nil in H
  end;
  try discriminate H.

(** The same with the selection read off the event. *)
Ltac query_in H :=
  lazymatch type of H with
  | Call ?l _ _ ∈ _ => select_in H (at_line l)
  | Log ?ch _ ∈ _ => select_in H (on_channel ch)
  end.

(** Finding an event in a trace that is written out, latest first. *)
Ltac find_in :=
  lazymatch goal with
  | |- _ ∈ _ ++ [_] =>
      apply elem_of_app;
      first [ right; apply list_elem_of_singleton; reflexivity | left; find_in ]
  | |- _ ∈ _ ++ _ => apply elem_of_app; first [ right; find_in | left; find_in ]
  | |- _ ∈ _ :: _ =>
      first [ apply list_elem_of_here | apply list_elem_of_further; find_in ]
  | |- list_elem_of _ (_ :: _) =>
      first [ apply list_elem_of_here | apply list_elem_of_further; find_in ]
  end.

(** ** Walking a script block by block

    A property of a block of ArthurGEOG567_Final.py is proved by walking
    that block alone; the script is then passed over block by block, keeping
    of each block either such a property or only that its events pass a
    test. *)

Lemma elem_of_select_1 keep ev t : ev ∈ select keep t -> ev ∈ t.
Proof.
  unfold select. intros Hin. apply list_elem_of_In in Hin.
  apply List.filter_In in Hin as [Hin _]. by apply list_elem_of_In.
Qed.

Lemma only_not_elem ok t ev : only ok t -> ev ∈ t -> ok ev = false -> False.
Proof.
  intros Ht Hin Hev. unfold only in Ht. rewrite Forall_forall in Ht.
  specialize (Ht _ Hin). congruence.
Qed.

Ltac pick_cases H :=
  repeat match type of H with
  | list_elem_of _ (_ :: _) => apply elem_of_cons in H as [H|H]
  | _ ∈ _ :: _ => apply elem_of_cons in H as [H|H]
  | list_elem_of _ [] => by apply elem_of_nil in H
  | _ ∈ [] => by apply elem_of_nil in H
  end;
  try discriminate H.

Lemma select_none keep chunk :
  only (fun ev => negb (keep ev)) chunk -> select keep chunk = [].
Proof. apply select_only. intros ev. apply negb_true_iff. Qed.

(** A trace with stretches that were left unwalked. *)
Ltac is_open t :=
  lazymatch t with
  | ?a ++ ?b => first [ is_open a | is_open b ]
  | ?x => is_var x
  end.

(** [pick_in H keep side]: as [select_in], for a trace whose unwalked
    stretches are known to hold no event that [keep] selects; [side] proves
    that [keep] selects the event of [H]. *)
Ltac pick_in H keep side :=
  repeat match type of H with
  | _ ∈ ?a ++ ?b => is_open (a ++ b); apply elem_of_app in H as [H|H]
  end;
  lazymatch type of H with
  | _ ∈ ?chunk =>
      tryif is_var chunk then
        try match goal with
        | Hc : only (fun ev => negb (keep ev)) chunk |- _ =>
            exfalso; apply (only_not_elem _ _ _ Hc H); apply negb_false_iff; side
        end
      else
        (apply (elem_of_select keep) in H; [|side];
         vm_compute in H; pick_cases H)
  end.

(** [seek]: find a call in a trace by its line, through the selection of
    that line on a part of the trace that is written out. *)
Ltac seek_line l :=
  lazymatch goal with
  | |- _ ∈ ?t =>
      tryif is_open t then
        lazymatch t with
        | _ ++ _ => apply elem_of_app; first [ right; seek_line l | left; seek_line l ]
        end
      else
        (apply (elem_of_select_1 (at_line l));
         lazymatch goal with
         | |- _ ∈ ?s => let s' := eval vm_compute in s in change s with s'
         end;
         solve [ repeat first [ apply list_elem_of_here | apply list_elem_of_further ] ])
  end.

Ltac seek :=
  lazymatch goal with
  | |- Call ?l _ _ ∈ _ => seek_line l
  | |- _ => find_in
  end.

Lemma only_negb_orb (k1 k2 : event -> bool) t :
  only (fun ev => negb (k1 ev || k2 ev)) t ->
  only (fun ev => negb (k1 ev)) t /\ only (fun ev => negb (k2 ev)) t.
Proof.
  intros Ht. split; (eapply only_weaken; [|exact Ht]); intros ev; cbv beta;
    rewrite negb_orb, andb_true_iff; tauto.
Qed.

(** The stretches hold none of the events of either kind. *)
Ltac split_only :=
  repeat match goal with
  | Hc : only (fun ev => negb (_ || _)) _ |- _ => apply only_negb_orb in Hc as [? ?]
  end.

(** Leaving a part of the script unwalked after a stretch that was left
    unwalked: the two stretches become one. *)
Lemma wp_cut_on {A} (ok : event -> bool) (m : M A) pre (Q : list event -> result A -> Prop) :
  only ok pre ->
  emits_only ok m ->
  (forall t r, only ok t -> Q t r) ->
  wp m pre Q.
Proof. intros Hpre Hm HQ. apply HQ. by apply only_app. Qed.

(** Leaving a part of the script unwalked, with a property of its own trace
    and outcome proved by walking that part alone. *)
Lemma wp_cut_spec {A} (ok : event -> bool) (spec : list event -> result A -> Prop)
    (m : M A) pre (Q : list event -> result A -> Prop) :
  emits_only ok m ->
  wp m [] spec ->
  (forall chunk r, only ok chunk -> spec chunk r -> Q (pre ++ chunk) r) ->
  wp m pre Q.
Proof. intros Hm Hs HQ. by apply HQ. Qed.

(** All events of a trace pass a test, as those of its stretches do. *)
Ltac only_tree :=
  repeat lazymatch goal with
  | |- only _ (_ ++ _) => apply only_app
  | |- only _ [] => constructor
  | |- only _ [_] => constructor; [reflexivity | constructor]
  | |- only _ _ => assumption
  end.

(** An event of a stretch is an event of the trace. *)
Ltac reach H :=
  first [ exact H | apply elem_of_app; first [ right; reach H | left; reach H ] ].

Ltac skip_on ok :=
  lazymatch goal with
  | |- wp _ ?pre _ =>
      apply wp_bind; apply (wp_cut_on ok);
      [ first [ assumption | constructor ]
      | emits_walk
      | intros ? [?|?] ?; cbv beta iota zeta;
        try match goal with Hp : only _ pre |- _ => clear Hp; clear pre end;
        try (at_handler; wp_walk) ]
  end.

(** Pass over ArthurGEOG567_Final.py up to the block [f], keeping of what
    has run that its events pass [ok]. *)
Ltac skip_ahead f ok :=
  repeat (tryif at_block f then fail else
    lazymatch goal with
    | |- wp (try_except _ _) _ _ =>
        apply wp_try_except; unfold ArthurGEOG567_Final.body; cbv beta iota zeta
    | |- wp (bind _ _) _ _ => skip_on ok
    | |- wp (ArthurGEOG567_Final.script _) _ _ =>
        unfold ArthurGEOG567_Final.script; cbv beta iota zeta
    end).

(** [run m]: prove a property of the trace and the outcome of [m] by
    walking [m]. *)
Ltac run m :=
  lazymatch goal with
  | |- ?G =>
      let G' := eval pattern (trace m), (outcome m) in G in
      lazymatch G' with
      | ?Q _ _ => apply (wp_run m Q)
      end
  end.

Ltac bind_step :=
  lazymatch goal with
  | |- wp (bind _ _) _ _ => apply wp_bind
  | |- _ => idtac
  end.

(** Pass over the block that is about to run, keeping the property [lem]
    of it as [H]. *)
Ltac spec_block lem H :=
  bind_step; eapply wp_spec; [apply lem|];
  intros ? [?|?] H; cbv beta iota zeta;
  repeat match goal with u : unit |- _ => destruct u end;
  try (at_handler; wp_walk).

(** The same, keeping also that the events of the block pass [ok]. *)
Ltac spec_cut_block ok lem H :=
  bind_step; eapply (wp_cut_spec ok); [emits_walk | apply lem |];
  intros ? [?|?] ? H; cbv beta iota zeta;
  repeat match goal with u : unit |- _ => destruct u end;
  try (at_handler; wp_walk).

(** Pass over the block that is about to run, keeping that its events pass
    [ok]. *)
Ltac cut_block ok := bind_step; wp_leave ok.

(** Pass so over the blocks up to the block [f]. *)
Ltac cut_until f ok := repeat (tryif at_block f then fail else cut_block ok).

(** [next tac]: run [tac] where the walk has not ended. *)
Ltac next tac :=
  tryif lazymatch goal with |- wp _ _ _ => idtac end then tac else idtac.

(** Walk the parameter reads of ArthurGEOG567_Final.py. *)
Ltac walk_parameters :=
  wp_walk_until ltac:(at_block (@ArthurGEOG567_Final.import_points)).

Lemma clean_up_starts h :
  wp (ArthurGEOG567_Final.clean_up h) []
    (fun t _ => exists r, Call 210 (Delete_management "in_memory\temp_table") r ∈ t).
Proof. wp_walk. all: eexists; seek. Qed.

(** ** clip_dem.py: the extent check *)

Example happy_clip_dem_runs :
  outcome (clip_dem.script (scenario_host happy)) = Ok tt.
Proof. vm_compute. reflexivity. Qed.

Lemma overlap_check h fc_path dem_path points dem :
  Call 55 (Describe fc_path) (inr (VDescription points)) ∈ trace (clip_dem.script h) ->
  Call 66 (Describe dem_path) (inr (VDescription dem)) ∈ trace (clip_dem.script h) ->
  flagged_disjoint (clip_dem.script h) <->
  aabb_disjoint (expanded 200000 (extent points)) (extent dem) = true.
Proof.
  unfold flagged_disjoint.
  apply (wp_run (clip_dem.script h) (fun t r =>
    Call 55 (Describe fc_path) (inr (VDescription points)) ∈ t ->
    Call 66 (Describe dem_path) (inr (VDescription dem)) ∈ t ->
    (AddError overlap_msg ∈ t /\ r = Raise (Exc ValueError overlap_msg)) <->
    aabb_disjoint (expanded 200000 (extent points)) (extent dem) = true)).
  wp_walk.
  all: intros Hpts Hdem; try (query_in Hpts; fail); try (query_in Hdem; fail).
  all: query_in Hpts; query_in Hdem; simplify_eq.
  all: unfold aabb_disjoint, expanded; cbn [XMin YMin XMax YMax].
  all: match goal with Hc : orb _ _ = _ |- _ => rewrite Hc end.
  all: split; [intros [Hin Hr] | intros Hd].
  all: try done.
  all: try (query_in Hin; discriminate Hin).
  split; [find_in | reflexivity].
Qed.

(** C1. In every run of clip_dem.py that gets as far as reading the extent
    of the projected points (line 55) and of the DEM (line 66), the run is
    flagged as non-overlapping (the error is reported with [AddError] and
    raised as a [ValueError]) if and only if the points' rectangle, expanded
    by the 200000 buffer, and the DEM's rectangle satisfy the bounding-box
    disjointness test of the specification.  In particular the expanded
    rectangle [(0, 0, 10, 10)] is flagged against a DEM at
    [(20, 20, 30, 30)], and is not flagged against a DEM at
    [(5, 5, 15, 15)]. *)
Theorem C1_flagged_iff_aabb_disjoint :
  (forall h fc_path dem_path points dem,
     Call 55 (Describe fc_path) (inr (VDescription points)) ∈ trace (clip_dem.script h) ->
     Call 66 (Describe dem_path) (inr (VDescription dem)) ∈ trace (clip_dem.script h) ->
     flagged_disjoint (clip_dem.script h) <->
     aabb_disjoint (expanded 200000 (extent points)) (extent dem) = true) /\
  (expanded 200000 (sc_points far_dem) = rect 0 0 10 10 /\
   sc_dem far_dem = rect 20 20 30 30 /\
   aabb_disjoint (rect 0 0 10 10) (rect 20 20 30 30) = true /\
   flagged_disjoint (clip_dem.script (scenario_host far_dem))) /\
  (expanded 200000 (sc_points happy) = rect 0 0 10 10 /\
   sc_dem happy = rect 5 5 15 15 /\
   aabb_disjoint (rect 0 0 10 10) (rect 5 5 15 15) = false /\
   ~ flagged_disjoint (clip_dem.script (scenario_host happy))).
Proof.
  split; [exact overlap_check|]. split.
  - split; [vm_compute; reflexivity|].
    split; [reflexivity|]. split; [vm_compute; reflexivity|].
    split; [vm_compute; find_in | vm_compute; reflexivity].
  - split; [vm_compute; reflexivity|].
    split; [reflexivity|]. split; [vm_compute; reflexivity|].
    intros [_ Hr]. vm_compute in Hr. discriminate Hr.
Qed.

(** The disjoint pair of the specification, through the equivalence. *)
Lemma C1_disjoint_pair_flagged :
  flagged_disjoint (clip_dem.script (scenario_host far_dem)).
Proof.
  eapply (proj1 C1_flagged_iff_aabb_disjoint _ "C:\data\out.gdb\sites" "C:\data\dem.tif"
            {| dataType := "RasterDataset"; spatialReference := {| factoryCode := 3776 |};
               extent := sc_points far_dem |}
            {| dataType := "RasterDataset"; spatialReference := {| factoryCode := 3776 |};
               extent := sc_dem far_dem |}).
  - vm_compute. find_in.
  - vm_compute. find_in.
  - vm_compute. reflexivity.
Defined.

(** Rectangles that only touch overlap: the comparisons are strict. *)
Example touching_pair_not_disjoint :
  aabb_disjoint (rect 0 0 10 10) (rect 10 10 20 20) = false /\
  aabb_disjoint (rect 0 0 10 10) (rect 10 0 20 10) = false.
Proof. split; vm_compute; reflexivity. Qed.

(** ** Both scripts: the required columns *)

Lemma py_in_false x names : negb (py_in x names) = false -> x ∈ names.
Proof. intros Hx. apply negb_false_iff in Hx. by apply bool_decide_eq_true in Hx. Qed.

Lemma py_in_true x names : negb (py_in x names) = true -> x ∉ names.
Proof. intros Hx. apply negb_true_iff in Hx. by apply bool_decide_eq_false in Hx. Qed.

Ltac field_facts :=
  repeat match goal with
  | Hb : negb (py_in _ _) = false |- _ => apply py_in_false in Hb
  | Hb : negb (py_in _ _) = true |- _ => apply py_in_true in Hb
  end;
  unfold ArthurGEOG567_Final.x_field, ArthurGEOG567_Final.y_field in *.

(** Every call of the trace, one case each. *)
Ltac all_calls Hc := select_in Hc is_call; simplify_eq.

(** C3. When the table made from the CSV (the answer of [ListFields], line
    29 of clip_dem.py and line 27 of ArthurGEOG567_Final.py) does not have
    both a field named Longitude and a field named Latitude, the script
    reports the error with [AddError] and ends with the [ValueError], and
    every toolbox call it has made sits on a line before the
    [XYTableToPoint] call (line 37, respectively 35): no geometry is built
    and nothing later is called. *)
Theorem C3_missing_column_rejected_before_geometry h table fields :
  ~ ("Longitude" ∈ map field_name fields /\ "Latitude" ∈ map field_name fields) ->
  (Call 29 (ListFields table) (inr (VFields fields)) ∈ trace (clip_dem.script h) ->
   outcome (clip_dem.script h) = Raise (Exc ValueError missing_fields_msg) /\
   AddError missing_fields_msg ∈ trace (clip_dem.script h) /\
   forall l c r, Call l c r ∈ trace (clip_dem.script h) -> l < 37) /\
  (Call 27 (ListFields table) (inr (VFields fields)) ∈ trace (ArthurGEOG567_Final.script h) ->
   outcome (ArthurGEOG567_Final.script h) = Raise (Exc ValueError missing_fields_msg) /\
   AddError missing_fields_msg ∈ trace (ArthurGEOG567_Final.script h) /\
   forall l c r, Call l c r ∈ trace (ArthurGEOG567_Final.script h) -> l < 35).
Proof.
  intros Hmissing. split.
  - apply (wp_run (clip_dem.script h) (fun t r =>
      Call 29 (ListFields table) (inr (VFields fields)) ∈ t ->
      r = Raise (Exc ValueError missing_fields_msg) /\
      AddError missing_fields_msg ∈ t /\
      forall l c r, Call l c r ∈ t -> l < 37)).
    wp_walk_until ltac:(at_tool 40%nat).
    all: try wp_leave (fun ev => negb (at_line 29 ev)).
    all: intros Hin; query_in Hin; simplify_eq.
    all: try (destruct Hmissing; split; by apply py_in_false).
    all: split; [reflexivity|]; split; [find_in|].
    all: intros l c r' Hc; all_calls Hc; lia.
  - apply (wp_run (ArthurGEOG567_Final.script h) (fun t r =>
      Call 27 (ListFields table) (inr (VFields fields)) ∈ t ->
      r = Raise (Exc ValueError missing_fields_msg) /\
      AddError missing_fields_msg ∈ t /\
      forall l c r, Call l c r ∈ t -> l < 35)).
    wp_walk_until ltac:(at_block (@ArthurGEOG567_Final.verify_dem)).
    all: try wp_leave (fun ev => negb (at_line 27 ev)).
    all: intros Hin; query_in Hin; simplify_eq.
    all: try (destruct Hmissing; split; by apply py_in_false).
    all: split; [reflexivity|]; split; [find_in|].
    all: intros l c r' Hc; all_calls Hc; lia.
Qed.

(** A name is not among the names written out. *)
Ltac not_listed H :=
  cbn in H;
  repeat (apply elem_of_cons in H as [H|H]; [discriminate H|]);
  by apply elem_of_nil in H.

(** A CSV with the columns Name and Latitude is rejected by both scripts. *)
Lemma C3_no_longitude_rejected :
  (outcome (clip_dem.script (scenario_host no_longitude))
     = Raise (Exc ValueError missing_fields_msg) /\
   AddError missing_fields_msg ∈ trace (clip_dem.script (scenario_host no_longitude)) /\
   forall l c r, Call l c r ∈ trace (clip_dem.script (scenario_host no_longitude)) -> l < 37) /\
  (outcome (ArthurGEOG567_Final.script (scenario_host no_longitude))
     = Raise (Exc ValueError missing_fields_msg) /\
   AddError missing_fields_msg ∈ trace (ArthurGEOG567_Final.script (scenario_host no_longitude)) /\
   forall l c r,
     Call l c r ∈ trace (ArthurGEOG567_Final.script (scenario_host no_longitude)) -> l < 35).
Proof.
  assert (Hmissing : ~ ("Longitude" ∈ map field_name (map Build_Field (sc_fields no_longitude)) /\
                        "Latitude" ∈ map field_name (map Build_Field (sc_fields no_longitude)))).
  { intros [HLo _]. not_listed HLo. }
  destruct (C3_missing_column_rejected_before_geometry
              (scenario_host no_longitude) "in_memory\temp_table" _ Hmissing) as [Hclip Hfinal].
  split; [apply Hclip | apply Hfinal]; vm_compute; find_in.
Defined.

(** C9. The required-column check compares names exactly, letter case
    included: a run that has listed the fields gets past the check and on
    to [XYTableToPoint] (line 37, respectively 35) if and only if the
    strings Longitude and Latitude themselves are among the field names;
    otherwise it ends with the [ValueError]. *)
Theorem C9_column_check_is_case_sensitive h table fields :
  (Call 29 (ListFields table) (inr (VFields fields)) ∈ trace (clip_dem.script h) ->
   (("Longitude" ∈ map field_name fields /\ "Latitude" ∈ map field_name fields) <->
    exists c r, Call 37 c r ∈ trace (clip_dem.script h)) /\
   (~ ("Longitude" ∈ map field_name fields /\ "Latitude" ∈ map field_name fields) ->
    outcome (clip_dem.script h) = Raise (Exc ValueError missing_fields_msg))) /\
  (Call 27 (ListFields table) (inr (VFields fields)) ∈ trace (ArthurGEOG567_Final.script h) ->
   (("Longitude" ∈ map field_name fields /\ "Latitude" ∈ map field_name fields) <->
    exists c r, Call 35 c r ∈ trace (ArthurGEOG567_Final.script h)) /\
   (~ ("Longitude" ∈ map field_name fields /\ "Latitude" ∈ map field_name fields) ->
    outcome (ArthurGEOG567_Final.script h) = Raise (Exc ValueError missing_fields_msg))).
Proof.
  split.
  - apply (wp_run (clip_dem.script h) (fun t r =>
      Call 29 (ListFields table) (inr (VFields fields)) ∈ t ->
      (("Longitude" ∈ map field_name fields /\ "Latitude" ∈ map field_name fields) <->
       exists c r, Call 37 c r ∈ t) /\
      (~ ("Longitude" ∈ map field_name fields /\ "Latitude" ∈ map field_name fields) ->
       r = Raise (Exc ValueError missing_fields_msg)))).
    wp_walk_until ltac:(at_tool 40%nat).
    all: try wp_leave (fun ev => negb (at_line 29 ev || at_line 37 ev)).
    all: intros Hin; query_in Hin; simplify_eq; field_facts.
    all: split; [split; [intros [HLo HLa] | intros (c & r' & Hc)] | intros Hmissing].
    all: try done.
    all: try (by destruct Hmissing).
    all: try (query_in Hc; fail).
    all: do 2 eexists; find_in.
  - apply (wp_run (ArthurGEOG567_Final.script h) (fun t r =>
      Call 27 (ListFields table) (inr (VFields fields)) ∈ t ->
      (("Longitude" ∈ map field_name fields /\ "Latitude" ∈ map field_name fields) <->
       exists c r, Call 35 c r ∈ t) /\
      (~ ("Longitude" ∈ map field_name fields /\ "Latitude" ∈ map field_name fields) ->
       r = Raise (Exc ValueError missing_fields_msg)))).
    wp_walk_until ltac:(at_block (@ArthurGEOG567_Final.verify_dem)).
    all: try wp_leave (fun ev => negb (at_line 27 ev || at_line 35 ev)).
    all: intros Hin; query_in Hin; simplify_eq; field_facts.
    all: split; [split; [intros [HLo HLa] | intros (c & r' & Hc)] | intros Hmissing].
    all: try done.
    all: try (by destruct Hmissing).
    all: try (query_in Hc; fail).
    all: do 2 eexists; find_in.
Qed.

(** A CSV whose columns are spelled longitude and LATITUDE is rejected by
    both scripts. *)
Lemma C9_other_case_rejected :
  outcome (clip_dem.script (scenario_host other_case))
    = Raise (Exc ValueError missing_fields_msg) /\
  outcome (ArthurGEOG567_Final.script (scenario_host other_case))
    = Raise (Exc ValueError missing_fields_msg).
Proof.
  assert (Hmissing : ~ ("Longitude" ∈ map field_name (map Build_Field (sc_fields other_case)) /\
                        "Latitude" ∈ map field_name (map Build_Field (sc_fields other_case)))).
  { intros [HLo _]. not_listed HLo. }
  destruct (C9_column_check_is_case_sensitive
              (scenario_host other_case) "in_memory\temp_table"
              (map Build_Field (sc_fields other_case))) as [Hclip Hfinal].
  split.
  - apply Hclip; [vm_compute; find_in | exact Hmissing].
  - apply Hfinal; [vm_compute; find_in | exact Hmissing].
Defined.

(** ** Both scripts: the DEM *)

(** C4. When [arcpy.Exists] answers that the DEM path names nothing, or
    [arcpy.Describe] answers with a data type other than RasterDataset, the
    script reports the matching error with [AddError] and ends with the
    [ValueError] of the same text; every toolbox call it has made sits on a
    line up to that of the failed check and none is a clipping or
    derivation step. *)
Theorem C4_invalid_dem_rejected h dem_path :
  (Call 40 (Exists dem_path) (inr (VBool false)) ∈ trace (clip_dem.script h) ->
   outcome (clip_dem.script h) = Raise (Exc ValueError (dem_missing_msg dem_path)) /\
   AddError (dem_missing_msg dem_path) ∈ trace (clip_dem.script h) /\
   forall l c r, Call l c r ∈ trace (clip_dem.script h) ->
     l <= 40 /\ is_clip_or_derivation c = false) /\
  (forall d, Call 43 (Describe dem_path) (inr (VDescription d)) ∈ trace (clip_dem.script h) ->
   dataType d <> "RasterDataset" ->
   outcome (clip_dem.script h) = Raise (Exc ValueError (dem_not_raster_msg dem_path)) /\
   AddError (dem_not_raster_msg dem_path) ∈ trace (clip_dem.script h) /\
   forall l c r, Call l c r ∈ trace (clip_dem.script h) ->
     l <= 43 /\ is_clip_or_derivation c = false) /\
  (Call 38 (Exists dem_path) (inr (VBool false)) ∈ trace (ArthurGEOG567_Final.script h) ->
   outcome (ArthurGEOG567_Final.script h) = Raise (Exc ValueError (dem_missing_msg dem_path)) /\
   AddError (dem_missing_msg dem_path) ∈ trace (ArthurGEOG567_Final.script h) /\
   forall l c r, Call l c r ∈ trace (ArthurGEOG567_Final.script h) ->
     l <= 38 /\ is_clip_or_derivation c = false) /\
  (forall d, Call 41 (Describe dem_path) (inr (VDescription d)) ∈ trace (ArthurGEOG567_Final.script h) ->
   dataType d <> "RasterDataset" ->
   outcome (ArthurGEOG567_Final.script h) = Raise (Exc ValueError (dem_not_raster_msg dem_path)) /\
   AddError (dem_not_raster_msg dem_path) ∈ trace (ArthurGEOG567_Final.script h) /\
   forall l c r, Call l c r ∈ trace (ArthurGEOG567_Final.script h) ->
     l <= 41 /\ is_clip_or_derivation c = false).
Proof.
  split; [|split; [|split]].
  - apply (wp_run (clip_dem.script h) (fun t r =>
      Call 40 (Exists dem_path) (inr (VBool false)) ∈ t ->
      r = Raise (Exc ValueError (dem_missing_msg dem_path)) /\
      AddError (dem_missing_msg dem_path) ∈ t /\
      forall l c r, Call l c r ∈ t -> l <= 40 /\ is_clip_or_derivation c = false)).
    wp_walk_until ltac:(at_tool 43%nat).
    all: try wp_leave (fun ev => negb (at_line 40 ev)).
    all: intros Hin; query_in Hin; simplify_eq.
    all: split; [reflexivity|]; split; [find_in|].
    all: intros l c r' Hc; all_calls Hc; (split; [lia | reflexivity]).
  - intros d.
    apply (wp_run (clip_dem.script h) (fun t r =>
      Call 43 (Describe dem_path) (inr (VDescription d)) ∈ t ->
      dataType d <> "RasterDataset" ->
      r = Raise (Exc ValueError (dem_not_raster_msg dem_path)) /\
      AddError (dem_not_raster_msg dem_path) ∈ t /\
      forall l c r, Call l c r ∈ t -> l <= 43 /\ is_clip_or_derivation c = false)).
    wp_walk_until ltac:(at_tool 48%nat).
    all: try wp_leave (fun ev => negb (at_line 43 ev)).
    all: intros Hin Htype; query_in Hin; simplify_eq.
    all: try (by apply negb_false_iff, String.eqb_eq in Heqb2).
    all: split; [reflexivity|]; split; [find_in|].
    all: intros l c r' Hc; all_calls Hc; (split; [lia | reflexivity]).
  - apply (wp_run (ArthurGEOG567_Final.script h) (fun t r =>
      Call 38 (Exists dem_path) (inr (VBool false)) ∈ t ->
      r = Raise (Exc ValueError (dem_missing_msg dem_path)) /\
      AddError (dem_missing_msg dem_path) ∈ t /\
      forall l c r, Call l c r ∈ t -> l <= 38 /\ is_clip_or_derivation c = false)).
    wp_walk_until ltac:(at_block (@ArthurGEOG567_Final.project_and_clip)).
    all: try wp_leave (fun ev => negb (at_line 38 ev)).
    all: intros Hin; query_in Hin; simplify_eq.
    all: split; [reflexivity|]; split; [find_in|].
    all: intros l c r' Hc; all_calls Hc; (split; [lia | reflexivity]).
  - intros d.
    apply (wp_run (ArthurGEOG567_Final.script h) (fun t r =>
      Call 41 (Describe dem_path) (inr (VDescription d)) ∈ t ->
      dataType d <> "RasterDataset" ->
      r = Raise (Exc ValueError (dem_not_raster_msg dem_path)) /\
      AddError (dem_not_raster_msg dem_path) ∈ t /\
      forall l c r, Call l c r ∈ t -> l <= 41 /\ is_clip_or_derivation c = false)).
    wp_walk_until ltac:(at_block (@ArthurGEOG567_Final.project_and_clip)).
    all: try wp_leave (fun ev => negb (at_line 41 ev)).
    all: intros Hin Htype; query_in Hin; simplify_eq.
    all: try (by apply negb_false_iff, String.eqb_eq in Heqb2).
    all: split; [reflexivity|]; split; [find_in|].
    all: intros l c r' Hc; all_calls Hc; (split; [lia | reflexivity]).
Qed.

(** A DEM path that names nothing, and one that names a shapefile, in
    both scripts. *)
Lemma C4_bad_dem_rejected :
  outcome (clip_dem.script (scenario_host no_dem))
    = Raise (Exc ValueError (dem_missing_msg "C:\data\dem.tif")) /\
  outcome (clip_dem.script (scenario_host dem_is_shapefile))
    = Raise (Exc ValueError (dem_not_raster_msg "C:\data\dem.tif")) /\
  outcome (ArthurGEOG567_Final.script (scenario_host no_dem))
    = Raise (Exc ValueError (dem_missing_msg "C:\data\dem.tif")) /\
  outcome (ArthurGEOG567_Final.script (scenario_host dem_is_shapefile))
    = Raise (Exc ValueError (dem_not_raster_msg "C:\data\dem.tif")).
Proof.
  destruct (C4_invalid_dem_rejected (scenario_host no_dem) "C:\data\dem.tif")
    as (Hclip & _ & Hfinal & _).
  destruct (C4_invalid_dem_rejected (scenario_host dem_is_shapefile) "C:\data\dem.tif")
    as (_ & Hclip' & _ & Hfinal').
  split; [|split; [|split]].
  - apply Hclip. vm_compute. find_in.
  - eapply Hclip'; [vm_compute; find_in | discriminate].
  - apply Hfinal. vm_compute. find_in.
  - eapply Hfinal'; [vm_compute; find_in | discriminate].
Defined.

(** ** Both scripts: the buffer *)

(** What [python_str] prints of the floats the runs below meet. *)
Example python_str_examples :
  python_str 200010 = "200010.0" /\ python_str (-5000) = "-5000.0" /\
  python_str 0 = "0.0" /\ python_str 0.5 = "?".
Proof. repeat split; vm_compute; reflexivity. Qed.

Lemma project_and_clip_rectangle h output_fc_path dem_path clipped_dem alberta_3tm :
  wp (ArthurGEOG567_Final.project_and_clip h output_fc_path dem_path clipped_dem alberta_3tm) []
    (fun t res =>
       (forall fc_path d,
          Call 57 (Describe fc_path) (inr (VDescription d)) ∈ t ->
          (forall a envelope_ b c1 c2 c3 c4 r,
             Call 69 (Clip a envelope_ b c1 c2 c3 c4) r ∈ t ->
             envelope_ = envelope h (expanded 5000 (extent d))) /\
          exists r,
            Call 69 (Clip "in_memory\projected_dem" (envelope h (expanded 5000 (extent d)))
                       clipped_dem "#" "#" "NONE" "MAINTAIN_EXTENT") r ∈ t) /\
       (res = Ok tt ->
        exists d,
          Call 57 (Describe output_fc_path) (inr (VDescription d)) ∈ t /\
          Call 69 (Clip "in_memory\projected_dem" (envelope h (expanded 5000 (extent d)))
                     clipped_dem "#" "#" "NONE" "MAINTAIN_EXTENT") (inr VNone) ∈ t)).
Proof.
  wp_walk.
  all: split; [intros fc_path d H57 | intros Hok; try discriminate Hok].
  all: try (pick_in H57 (at_line 57) ltac:(reflexivity); simplify_eq;
            (split; [|eexists; seek]);
            intros src rect_ dst k1 k2 k3 k4 r' H69;
            pick_in H69 (at_line 69) ltac:(reflexivity); by simplify_eq).
  eexists; split; seek.
Qed.

(** C2. In both scripts the buffer step turns the extent
    [(xmin, ymin, xmax, ymax)] of the projected points (the answer of
    [Describe] on line 55, respectively 57) into
    [(xmin - m, ymin - m, xmax + m, ymax + m)] in Python's float arithmetic,
    with [m = 200000] in clip_dem.py and [m = 5000] in
    ArthurGEOG567_Final.py, and the script goes on with that rectangle.  In
    clip_dem.py, once the extent of the DEM is read on line 66, the expanded
    rectangle is what line 67 logs, and [Clip] is called on it whenever the
    extent check does not find it disjoint from the DEM.  In
    ArthurGEOG567_Final.py every run that has read the extent calls [Clip]
    on the expanded rectangle.  The [Clip] call of line 77, respectively 69,
    is never given another rectangle, and a run that ends normally has read
    the extent and made that call, which returned. *)
Theorem C2_clip_rectangle_is_expanded_extent h :
  (forall fc_path d,
     Call 55 (Describe fc_path) (inr (VDescription d)) ∈ trace (clip_dem.script h) ->
     (forall a envelope_ b c1 c2 c3 c4 r,
        Call 77 (Clip a envelope_ b c1 c2 c3 c4) r ∈ trace (clip_dem.script h) ->
        envelope_ = envelope h (expanded 200000 (extent d))) /\
     (forall dem_path dem,
        Call 66 (Describe dem_path) (inr (VDescription dem)) ∈ trace (clip_dem.script h) ->
        AddMessage (points_extent_msg h (expanded 200000 (extent d)))
          ∈ trace (clip_dem.script h) /\
        (aabb_disjoint (expanded 200000 (extent d)) (extent dem) = false ->
         exists a b r,
           Call 77 (Clip a (envelope h (expanded 200000 (extent d))) b
                      "" "" "ClippingGeometry" "MAINTAIN_EXTENT") r
             ∈ trace (clip_dem.script h)))) /\
  (outcome (clip_dem.script h) = Ok tt ->
   exists fc_path d a b,
     Call 55 (Describe fc_path) (inr (VDescription d)) ∈ trace (clip_dem.script h) /\
     Call 77 (Clip a (envelope h (expanded 200000 (extent d))) b
                "" "" "ClippingGeometry" "MAINTAIN_EXTENT") (inr VNone)
       ∈ trace (clip_dem.script h)) /\
  (forall fc_path d,
     Call 57 (Describe fc_path) (inr (VDescription d)) ∈ trace (ArthurGEOG567_Final.script h) ->
     (forall a envelope_ b c1 c2 c3 c4 r,
        Call 69 (Clip a envelope_ b c1 c2 c3 c4) r ∈ trace (ArthurGEOG567_Final.script h) ->
        envelope_ = envelope h (expanded 5000 (extent d))) /\
     exists b r,
       Call 69 (Clip "in_memory\projected_dem" (envelope h (expanded 5000 (extent d))) b
                  "#" "#" "NONE" "MAINTAIN_EXTENT") r
         ∈ trace (ArthurGEOG567_Final.script h)) /\
  (outcome (ArthurGEOG567_Final.script h) = Ok tt ->
   exists fc_path d b,
     Call 57 (Describe fc_path) (inr (VDescription d)) ∈ trace (ArthurGEOG567_Final.script h) /\
     Call 69 (Clip "in_memory\projected_dem" (envelope h (expanded 5000 (extent d))) b
                "#" "#" "NONE" "MAINTAIN_EXTENT") (inr VNone)
       ∈ trace (ArthurGEOG567_Final.script h)).
Proof.
  split; [|split; [|split]].
  - intros fc_path d. run (clip_dem.script h).
    wp_walk.
    all: intros H55; query_in H55; simplify_eq.
    all: split;
      [ intros src rect_ dst k1 k2 k3 k4 r' H77; query_in H77; by simplify_eq
      | intros dem_path dem H66; query_in H66; simplify_eq ].
    all: split; [find_in | intros Hd].
    all: unfold aabb_disjoint, expanded in Hd; cbn [XMin YMin XMax YMax] in Hd.
    all: try congruence.
    all: eexists _, _, _; find_in.
  - run (clip_dem.script h).
    wp_walk.
    all: intros Hok; try discriminate Hok.
    eexists _, _, _, _; split; find_in.
  - intros fc_path d. run (ArthurGEOG567_Final.script h).
    skip_ahead (@ArthurGEOG567_Final.project_and_clip)
      (fun ev => negb (at_line 57 ev || at_line 69 ev)).
    all: next ltac:(spec_block project_and_clip_rectangle Hclip).
    all: next ltac:(wp_leave (fun ev => negb (at_line 57 ev || at_line 69 ev))).
    all: split_only.
    all: intros H57; pick_in H57 (at_line 57) ltac:(reflexivity).
    all: destruct Hclip as [Hclip _]; destruct (Hclip _ _ H57) as [Hrect [r' Hr]].
    all: split; [|eexists _, r'; reach Hr].
    all: intros src rect_ dst k1 k2 k3 k4 r'' H69; pick_in H69 (at_line 69) ltac:(reflexivity).
    all: by eapply Hrect.
  - run (ArthurGEOG567_Final.script h).
    skip_ahead (@ArthurGEOG567_Final.project_and_clip) (fun _ : event => true).
    all: next ltac:(spec_block project_and_clip_rectangle Hclip).
    all: next ltac:(wp_leave (fun _ : event => true)).
    all: intros Hok; try discriminate Hok.
    all: destruct Hclip as [_ Hclip]; destruct (Hclip eq_refl) as (d & H57 & H69).
    all: eexists _, d, _; split; [reach H57 | reach H69].
Qed.

(** The expansion itself, on the literal rectangle [(0, 0, 10, 10)]. *)
Example expanded_literals :
  expanded 5000 (rect 0 0 10 10) = rect (-5000) (-5000) 5010 5010 /\
  expanded 200000 (rect 0 0 10 10) = rect (-200000) (-200000) 200010 200010.
Proof. split; vm_compute; reflexivity. Qed.

(** The points of the survey lie within [(0, 0, 10, 10)]: clip_dem.py logs
    and clips [(-200000, -200000, 200010, 200010)], ArthurGEOG567_Final.py
    clips [(-5000, -5000, 5010, 5010)], written as Python prints floats. *)
Lemma C2_survey_clip_rectangles :
  AddMessage "Points extent: xmin=-200000.0, ymin=-200000.0, xmax=200010.0, ymax=200010.0"
    ∈ trace (clip_dem.script (python_host survey)) /\
  (exists a b r,
     Call 77 (Clip a "-200000.0 -200000.0 200010.0 200010.0" b
                "" "" "ClippingGeometry" "MAINTAIN_EXTENT") r
       ∈ trace (clip_dem.script (python_host survey))) /\
  (exists b r,
     Call 69 (Clip "in_memory\projected_dem" "-5000.0 -5000.0 5010.0 5010.0" b
                "#" "#" "NONE" "MAINTAIN_EXTENT") r
       ∈ trace (ArthurGEOG567_Final.script (python_host survey))).
Proof.
  pose (d := {| dataType := "RasterDataset"; spatialReference := {| factoryCode := 3776 |};
                extent := sc_points survey |}).
  pose (dem := {| dataType := "RasterDataset"; spatialReference := {| factoryCode := 3776 |};
                  extent := sc_dem survey |}).
  destruct (C2_clip_rectangle_is_expanded_extent (python_host survey))
    as (Hclip & _ & Hfinal & _).
  destruct (Hclip "C:\data\out.gdb\sites" d) as [_ Hreach]; [vm_compute; find_in|].
  destruct (Hreach "C:\data\dem.tif" dem) as [Hmsg Hcall]; [vm_compute; find_in|].
  destruct (Hfinal "C:\data\out.gdb\sites" d) as [_ H69]; [vm_compute; find_in|].
  split; [exact Hmsg|].
  split; [apply Hcall; vm_compute; reflexivity | exact H69].
Defined.

(** ** ArthurGEOG567_Final.py: the message after the first attempt to add
    the points *)

(** C10. In every run of ArthurGEOG567_Final.py that gets as far as the
    first attempt to add the point feature class to the map (line 153),
    what is reported after it follows the elevation layer of line 147 and
    not the answer of line 153: when the elevation layer was added the
    script reports "Point Feature Class added to the map.", also when line
    153 returned no layer; when the elevation layer was not added it
    reports "Failed to add Point Feature Class to the map.", also when line
    153 returned a layer. *)
Theorem C10_point_message_follows_elevation_layer h c147 c153 el pl :
  Call 147 c147 (inr (VLayer el)) ∈ trace (ArthurGEOG567_Final.script h) ->
  Call 153 c153 (inr (VLayer pl)) ∈ trace (ArthurGEOG567_Final.script h) ->
  (is_Some el ->
   AddMessage "Point Feature Class added to the map." ∈ trace (ArthurGEOG567_Final.script h)) /\
  (el = None ->
   AddError "Failed to add Point Feature Class to the map." ∈ trace (ArthurGEOG567_Final.script h)).
Proof.
  apply (wp_run (ArthurGEOG567_Final.script h) (fun t _ =>
    Call 147 c147 (inr (VLayer el)) ∈ t ->
    Call 153 c153 (inr (VLayer pl)) ∈ t ->
    (is_Some el -> AddMessage "Point Feature Class added to the map." ∈ t) /\
    (el = None -> AddError "Failed to add Point Feature Class to the map." ∈ t))).
  wp_walk_until ltac:(at_block (@ArthurGEOG567_Final.order_layers)).
  all: try wp_leave (fun ev => negb (at_line 147 ev || at_line 153 ev)).
  all: intros H147 H153; query_in H153; query_in H147; simplify_eq.
  all: split; [intros [x ->] | intros ->]; find_in.
Qed.

(** The elevation layer is added, the point layer is not, and the script
    reports the point feature class as added. *)
Lemma C10_point_layer_fails_yet_reported_added :
  Call 153 (addDataFromPath {| map_id := 0 |} "C:\data\out.gdb\sites") (inr (VLayer None))
    ∈ trace (ArthurGEOG567_Final.script (scenario_host point_layer_fails)) /\
  AddMessage "Point Feature Class added to the map."
    ∈ trace (ArthurGEOG567_Final.script (scenario_host point_layer_fails)).
Proof.
  assert (H153 : Call 153 (addDataFromPath {| map_id := 0 |} "C:\data\out.gdb\sites")
                   (inr (VLayer None))
                 ∈ trace (ArthurGEOG567_Final.script (scenario_host point_layer_fails))).
  { vm_compute. find_in. }
  split; [exact H153|].
  refine (proj1 (C10_point_message_follows_elevation_layer (scenario_host point_layer_fails)
                   (addDataFromPath {| map_id := 0 |} "C:\data\clipped.tif") _
                   (Some {| layer_name := "C:\data\clipped.tif" |}) None _ H153) _).
  - vm_compute. find_in.
  - by eexists.
Defined.

(** ** ArthurGEOG567_Final.py: derived rasters and sampling *)





(** C8. Every [Hillshade] call of a run of ArthurGEOG567_Final.py has
    azimuth 315 and altitude 45 and is made on the raster named by the
    script's fifth parameter, the clipped DEM, whatever the parameters and
    whatever the toolbox answers; a successful run has made that call. *)
Theorem C8_hillshade_parameters_fixed h :
  (forall l in_raster azimuth altitude r,
     Call l (Hillshade in_raster azimuth altitude) r ∈ trace (ArthurGEOG567_Final.script h) ->
     azimuth = 315%Z /\ altitude = 45%Z /\
     Call 9 (GetParameterAsText 4) (inr (VStr in_raster))
       ∈ trace (ArthurGEOG567_Final.script h)) /\
  (outcome (ArthurGEOG567_Final.script h) = Ok tt ->
   exists clipped_dem r,
     Call 104 (Hillshade clipped_dem 315 45) (inr (VRaster r))
       ∈ trace (ArthurGEOG567_Final.script h)).
Proof.
  apply (wp_run (ArthurGEOG567_Final.script h) (fun t res =>
    (forall l in_raster azimuth altitude r,
       Call l (Hillshade in_raster azimuth altitude) r ∈ t ->
       azimuth = 315%Z /\ altitude = 45%Z /\
       Call 9 (GetParameterAsText 4) (inr (VStr in_raster)) ∈ t) /\
    (res = Ok tt ->
     exists clipped_dem r,
       Call 104 (Hillshade clipped_dem 315 45) (inr (VRaster r)) ∈ t))).
  wp_walk_until ltac:(at_block (@ArthurGEOG567_Final.extract_values)).
  all: try wp_leave (fun ev => negb (is_hillshade ev)).
  all: split; [intros l in_raster azimuth altitude r' Hh | intros Hok; try discriminate Hok].
  all: try (select_in Hh is_hillshade; simplify_eq; (split; [done|]; split; [done|]; find_in)).
  all: do 2 eexists; find_in.
Qed.

(** The hillshade call of the run where everything succeeds. *)
Lemma C8_happy_hillshade :
  exists clipped_dem r,
    Call 104 (Hillshade clipped_dem 315 45) (inr (VRaster r))
      ∈ trace (ArthurGEOG567_Final.script (scenario_host happy)).
Proof.
  apply (proj2 (C8_hillshade_parameters_fixed (scenario_host happy))).
  vm_compute. reflexivity.
Defined.

(** ** Both scripts: temporary datasets *)

Lemma datasets_snoc init t ev :
  datasets init (t ++ [ev]) = apply_event (datasets init t) ev.
Proof. unfold datasets. by rewrite foldl_app. Qed.

Lemma absent_after_delete init t l d v :
  d ∉ datasets init (t ++ [Call l (Delete_management d) (inr v)]).
Proof.
  rewrite datasets_snoc. cbn. rewrite not_elem_of_difference.
  right. by apply elem_of_singleton.
Qed.

Lemma absent_after_call init t l c v d :
  created c = ∅ ->
  d ∉ datasets init t ->
  d ∉ datasets init (t ++ [Call l c (inr v)]).
Proof.
  intros Hc Hd. rewrite datasets_snoc. cbn. rewrite Hc.
  rewrite elem_of_difference, elem_of_union, elem_of_empty. tauto.
Qed.

Lemma absent_after_log init t ch s d :
  d ∉ datasets init t ->
  d ∉ datasets init (t ++ [Log ch s]).
Proof. intros Hd. by rewrite datasets_snoc. Qed.

(** A dataset is gone once it was deleted and nothing written since. *)
Ltac absent :=
  repeat first
    [ apply absent_after_delete
    | apply absent_after_log
    | apply absent_after_call; [reflexivity|] ].

(** Pass over the block that is about to run, keeping nothing of it. *)
Ltac wp_skip :=
  apply wp_bind; apply (wp_spec (fun _ _ => True)); [exact I|];
  intros ? [?|?] _; cbv beta iota zeta; try (at_handler; wp_walk).

(** C7. Whatever datasets exist before the run, when a run of either
    script ends without an exception the in-memory table and the in-memory
    WGS 1984 feature class do not exist any more, and after
    ArthurGEOG567_Final.py the in-memory projected DEM neither. *)
Theorem C7_temporaries_deleted h init :
  (outcome (clip_dem.script h) = Ok tt ->
   ("in_memory\temp_table" ∉ datasets init (trace (clip_dem.script h))) /\
   ("in_memory\temp_fc_wgs84" ∉ datasets init (trace (clip_dem.script h)))) /\
  (outcome (ArthurGEOG567_Final.script h) = Ok tt ->
   ("in_memory\temp_table" ∉ datasets init (trace (ArthurGEOG567_Final.script h))) /\
   ("in_memory\temp_fc_wgs84" ∉ datasets init (trace (ArthurGEOG567_Final.script h))) /\
   ("in_memory\projected_dem" ∉ datasets init (trace (ArthurGEOG567_Final.script h)))).
Proof.
  split.
  - apply (wp_run (clip_dem.script h) (fun t r =>
      r = Ok tt ->
      ("in_memory\temp_table" ∉ datasets init t) /\
      ("in_memory\temp_fc_wgs84" ∉ datasets init t))).
    wp_walk.
    all: intros Hok; try discriminate Hok.
    split; absent.
  - apply (wp_run (ArthurGEOG567_Final.script h) (fun t r =>
      r = Ok tt ->
      ("in_memory\temp_table" ∉ datasets init t) /\
      ("in_memory\temp_fc_wgs84" ∉ datasets init t) /\
      ("in_memory\projected_dem" ∉ datasets init t))).
    wp_walk_until ltac:(at_block (@ArthurGEOG567_Final.import_points)).
    all: try (unfold ArthurGEOG567_Final.body;
              repeat (tryif at_block (@ArthurGEOG567_Final.clean_up) then fail else wp_skip);
              wp_walk).
    all: intros Hok; try discriminate Hok.
    repeat split; absent.
Qed.

(** The temporaries are gone after the runs where everything succeeds,
    also when the table was there before. *)
Lemma C7_happy_temporaries_deleted :
  ("in_memory\temp_table"
     ∉ datasets {[ "in_memory\temp_table" ]} (trace (clip_dem.script (scenario_host happy)))) /\
  ("in_memory\projected_dem"
     ∉ datasets {[ "in_memory\temp_table" ]}
         (trace (ArthurGEOG567_Final.script (scenario_host happy)))).
Proof.
  destruct (C7_temporaries_deleted (scenario_host happy) {[ "in_memory\temp_table" ]})
    as [Hclip Hfinal].
  split.
  - apply Hclip. vm_compute. reflexivity.
  - apply Hfinal. vm_compute. reflexivity.
Defined.

(** ** Both scripts: exceptions of toolbox calls *)

Ltac faithful_block :=
  wp_walk;
  let Hf := fresh "Hf" in
  intros ? ? ? Hf ?; select_in Hf is_failure; by simplify_eq.

(** Pass over the block that is about to run, keeping that it is
    [faithful]. *)
Ltac faithful_skip :=
  first [ apply wp_bind | idtac ];
  apply (wp_spec faithful); [faithful_block|];
  intros ? [?|?] ?; cbv beta iota zeta; try (at_handler; wp_walk).

(** Where in the trace the failed call is. *)
Ltac failure_cases Hf :=
  repeat match type of Hf with
  | _ ∈ _ ++ _ => apply elem_of_app in Hf as [Hf|Hf]
  end;
  first
    [ by apply elem_of_nil in Hf
    | apply list_elem_of_singleton in Hf; simplify_eq
    | match goal with
      | Hs : faithful ?chunk _ |- _ =>
          match type of Hf with
          | _ ∈ chunk => specialize (Hs _ _ _ Hf ltac:(done)); simplify_eq
          end
      end ].

Lemma clip_dem_faithful h l c e :
  Call l c (inl e) ∈ trace (clip_dem.script h) ->
  outcome (clip_dem.script h) = Raise e /\
  (l = 77 -> is_Exception e = true ->
   AddError ("Failed to clip DEM: " +:+ exc_str e) ∈ trace (clip_dem.script h)).
Proof.
  apply (wp_run (clip_dem.script h) (fun t r =>
    Call l c (inl e) ∈ t ->
    r = Raise e /\
    (l = 77 -> is_Exception e = true ->
     AddError ("Failed to clip DEM: " +:+ exc_str e) ∈ t))).
  wp_walk.
  all: intros Hf; select_in Hf is_failure; simplify_eq.
  all: split; [reflexivity|]; intros Hline Hexc; first [lia | congruence | find_in].
Qed.

Lemma final_faithful h l c e :
  Call l c (inl e) ∈ trace (ArthurGEOG567_Final.script h) -> l <> 201 ->
  outcome (ArthurGEOG567_Final.script h) = Raise e /\
  (18 <= l -> is_Exception e = true ->
   AddError ("Script failed with error: " +:+ exc_str e) ∈ trace (ArthurGEOG567_Final.script h)).
Proof.
  apply (wp_run (ArthurGEOG567_Final.script h) (fun t r =>
    Call l c (inl e) ∈ t -> l <> 201 ->
    r = Raise e /\
    (18 <= l -> is_Exception e = true ->
     AddError ("Script failed with error: " +:+ exc_str e) ∈ t))).
  wp_walk_until ltac:(at_block (@ArthurGEOG567_Final.import_points)).
  all: try (unfold ArthurGEOG567_Final.body; repeat faithful_skip).
  all: intros Hf Hl; failure_cases Hf.
  all: split; [reflexivity|]; intros Hline Hexc; first [lia | congruence | find_in].
Qed.

Lemma some_tool_handlers h :
  wp (ArthurGEOG567_Final.some_tool h) []
    (fun t r =>
       (forall c e, Call 201 c (inl e) ∈ t ->
          (is_ExecuteError e = true ->
           exists answer,
             Call 204 (GetMessages 2) answer ∈ t /\
             (forall msgs, answer = inr (VStr msgs) ->
                print ("Error with tool execution: " +:+ msgs) ∈ t /\ r = Ok tt) /\
             (forall e', answer = inl e' -> r = Raise e')) /\
          (is_Exception e = true -> is_ExecuteError e = false ->
           print ("Unexpected error: " +:+ exc_str e) ∈ t /\ r = Ok tt) /\
          (is_Exception e = false ->
           r = Raise e /\ last t = Some (Call 201 c (inl e)))) /\
       (forall c v, Call 201 c (inr v) ∈ t ->
          print "Unexpected error: name 'output' is not defined" ∈ t /\ r = Ok tt)).
Proof.
  wp_walk.
  all: split; [intros c e' H201 | intros c v H201].
  all: pick_in H201 (at_line 201) ltac:(reflexivity).
  all: try (split; [seek | reflexivity]).
  all: injection H201 as <- <-.
  all: split; [intros Hexe | split; [intros Hexc Hexe | intros Hexc]].
  all: try (unfold is_Exception, is_ExecuteError in *; destruct (exc_cls _); congruence).
  all: try (split; [seek | reflexivity]; fail).
  all: try (split; [reflexivity | apply last_snoc]; fail).
  all: eexists; split; [seek|]; split; [intros msgs Hr | intros e'' Hr]; simplify_eq.
  all: first [ reflexivity | split; [seek | reflexivity] ].
Qed.

Lemma line_201_handled h :
  (forall c e,
     Call 201 c (inl e) ∈ trace (ArthurGEOG567_Final.script h) ->
     (is_ExecuteError e = true ->
      exists answer,
        Call 204 (GetMessages 2) answer ∈ trace (ArthurGEOG567_Final.script h) /\
        (forall msgs, answer = inr (VStr msgs) ->
           print ("Error with tool execution: " +:+ msgs)
             ∈ trace (ArthurGEOG567_Final.script h) /\
           exists r, Call 210 (Delete_management "in_memory\temp_table") r
                       ∈ trace (ArthurGEOG567_Final.script h)) /\
        (forall e', answer = inl e' -> outcome (ArthurGEOG567_Final.script h) = Raise e')) /\
     (is_Exception e = true -> is_ExecuteError e = false ->
      print ("Unexpected error: " +:+ exc_str e) ∈ trace (ArthurGEOG567_Final.script h) /\
      exists r, Call 210 (Delete_management "in_memory\temp_table") r
                  ∈ trace (ArthurGEOG567_Final.script h)) /\
     (is_Exception e = false ->
      outcome (ArthurGEOG567_Final.script h) = Raise e /\
      last (trace (ArthurGEOG567_Final.script h)) = Some (Call 201 c (inl e)))) /\
  (forall c v,
     Call 201 c (inr v) ∈ trace (ArthurGEOG567_Final.script h) ->
     print "Unexpected error: name 'output' is not defined"
       ∈ trace (ArthurGEOG567_Final.script h) /\
     exists r, Call 210 (Delete_management "in_memory\temp_table") r
                 ∈ trace (ArthurGEOG567_Final.script h)).
Proof.
  run (ArthurGEOG567_Final.script h).
  skip_ahead (@ArthurGEOG567_Final.some_tool) (fun ev => negb (at_line 201 ev)).
  all: next ltac:(spec_block some_tool_handlers Htool).
  all: next ltac:(spec_cut_block (fun ev => negb (at_line 201 ev)) clean_up_starts Hclean).
  all: next ltac:(wp_leave (fun ev => negb (at_line 201 ev))).
  all: split; [intros c e' H201 | intros c v H201].
  all: pick_in H201 (at_line 201) ltac:(reflexivity).
  all: destruct Htool as [Hraised Hreturned].
  all: lazymatch type of H201 with
       | Call 201 _ (inr _) ∈ _ =>
           destruct (Hreturned _ _ H201) as [Hprint Hdone];
           first [ discriminate Hdone
                 | split; [reach Hprint|]; destruct Hclean as [r' H210]; exists r'; reach H210 ]
       | _ => destruct (Hraised _ _ H201) as (Hexecute & Hother & Hbase)
       end.
  all: split; [intros Hexe | split; [intros Hexc Hexe | intros Hexc]].
  all: try (destruct (Hother Hexc Hexe) as [Hprint Hdone];
            first [ discriminate Hdone
                  | split; [reach Hprint|]; destruct Hclean as [r' H210]; exists r'; reach H210 ]).
  all: try (destruct (Hbase Hexc) as [Hdone Hlast];
            first [ discriminate Hdone
                  | injection Hdone as ->;
                    first [ congruence
                          | split; [reflexivity|]; by rewrite last_app, Hlast ] ]).
  all: destruct (Hexecute Hexe) as (answer & H204 & Hok & Hraise).
  all: exists answer; split; [reach H204|].
  all: split; [intros msgs Hr; destruct (Hok _ Hr) as [Hprint Hdone]; try discriminate Hdone
              | intros e'' Hr; specialize (Hraise _ Hr); by simplify_eq ].
  all: split; [reach Hprint|]; destruct Hclean as [r' H210]; exists r'; reach H210.
Qed.

(** No run of ArthurGEOG567_Final.py ends normally without an exception
    raised and handled on line 201: either the lookup of
    [arcpy.SomeTool_management] raises, or the unbound name [output] does. *)
Lemma line_201_always_raises h :
  outcome (ArthurGEOG567_Final.script h) = Ok tt ->
  (exists e, Call 201 (ArcpyAttr "SomeTool_management") (inl e)
               ∈ trace (ArthurGEOG567_Final.script h)) \/
  print "Unexpected error: name 'output' is not defined"
    ∈ trace (ArthurGEOG567_Final.script h).
Proof.
  apply (wp_run (ArthurGEOG567_Final.script h) (fun t r =>
    r = Ok tt ->
    (exists e, Call 201 (ArcpyAttr "SomeTool_management") (inl e) ∈ t) \/
    print "Unexpected error: name 'output' is not defined" ∈ t)).
  wp_walk_until ltac:(at_block (@ArthurGEOG567_Final.import_points)).
  all: try (unfold ArthurGEOG567_Final.body;
            repeat (tryif at_block (@ArthurGEOG567_Final.some_tool) then fail else wp_skip);
            wp_walk_until ltac:(at_block (@ArthurGEOG567_Final.clean_up))).
  all: repeat wp_leave (fun _ : event => true).
  all: intros Hok; try discriminate Hok.
  all: first [ left; eexists; find_in | right; find_in ].
Qed.

(** The claim as worded in the specification has every exception of a
    toolbox call end the run.  On the run of the survey, where everything
    else succeeds, the lookup of [arcpy.SomeTool_management] on line 201
    raises, nothing is reported with [AddError], the cleanup of line 210
    runs and the script ends normally. *)
Lemma C6_line_201_failure_is_swallowed :
  Call 201 (ArcpyAttr "SomeTool_management")
       (inl (Exc AttributeError "module 'arcpy' has no attribute 'SomeTool_management'"))
    ∈ trace (ArthurGEOG567_Final.script (python_host survey)) /\
  outcome (ArthurGEOG567_Final.script (python_host survey)) = Ok tt /\
  select (on_channel Error) (trace (ArthurGEOG567_Final.script (python_host survey))) = [] /\
  print "Unexpected error: module 'arcpy' has no attribute 'SomeTool_management'"
    ∈ trace (ArthurGEOG567_Final.script (python_host survey)) /\
  Call 210 (Delete_management "in_memory\temp_table") (inr VNone)
    ∈ trace (ArthurGEOG567_Final.script (python_host survey)).
Proof.
  split; [vm_compute; find_in|].
  split; [vm_compute; reflexivity|].
  split; [vm_compute; reflexivity|].
  split; vm_compute; find_in.
Qed.

(** C6, amended. An exception raised by a toolbox call of clip_dem.py ends
    the run with that exception, after an [AddError] line when it is the
    [Clip] call of line 77 that raised an [Exception].  An exception raised
    by a toolbox call of ArthurGEOG567_Final.py on any line but 201 ends the
    run with that exception, after the [AddError] line of the outer handler
    when the call is inside the [try] and raised an [Exception].  What the
    lookup of line 201 raises is handled on lines 202 to 207 and not raised
    again.  An [ExecuteError] is answered by [GetMessages(2)] on line 204:
    when that returns, the messages are printed and the run goes on to the
    cleanup of line 210; when that raises, its exception ends the run.  Any
    other [Exception] is printed after "Unexpected error: " and the run goes
    on to the cleanup of line 210.  An exception that is no [Exception]
    (KeyboardInterrupt, SystemExit) is caught by no handler: it ends the run
    and the failed call is the last event.  When the lookup of line 201
    returns, the unbound name [output] raises a [NameError], which is
    printed the same way, and the run goes on to the cleanup. *)
Theorem C6_toolbox_exceptions_propagate h :
  (forall l c e,
     Call l c (inl e) ∈ trace (clip_dem.script h) ->
     outcome (clip_dem.script h) = Raise e /\
     (l = 77 -> is_Exception e = true ->
      AddError ("Failed to clip DEM: " +:+ exc_str e) ∈ trace (clip_dem.script h))) /\
  (forall l c e,
     Call l c (inl e) ∈ trace (ArthurGEOG567_Final.script h) -> l <> 201 ->
     outcome (ArthurGEOG567_Final.script h) = Raise e /\
     (18 <= l -> is_Exception e = true ->
      AddError ("Script failed with error: " +:+ exc_str e)
        ∈ trace (ArthurGEOG567_Final.script h))) /\
  (forall c e,
     Call 201 c (inl e) ∈ trace (ArthurGEOG567_Final.script h) ->
     (is_ExecuteError e = true ->
      exists answer,
        Call 204 (GetMessages 2) answer ∈ trace (ArthurGEOG567_Final.script h) /\
        (forall msgs, answer = inr (VStr msgs) ->
           print ("Error with tool execution: " +:+ msgs)
             ∈ trace (ArthurGEOG567_Final.script h) /\
           exists r, Call 210 (Delete_management "in_memory\temp_table") r
                       ∈ trace (ArthurGEOG567_Final.script h)) /\
        (forall e', answer = inl e' -> outcome (ArthurGEOG567_Final.script h) = Raise e')) /\
     (is_Exception e = true -> is_ExecuteError e = false ->
      print ("Unexpected error: " +:+ exc_str e) ∈ trace (ArthurGEOG567_Final.script h) /\
      exists r, Call 210 (Delete_management "in_memory\temp_table") r
                  ∈ trace (ArthurGEOG567_Final.script h)) /\
     (is_Exception e = false ->
      outcome (ArthurGEOG567_Final.script h) = Raise e /\
      last (trace (ArthurGEOG567_Final.script h)) = Some (Call 201 c (inl e)))) /\
  (forall c v,
     Call 201 c (inr v) ∈ trace (ArthurGEOG567_Final.script h) ->
     print "Unexpected error: name 'output' is not defined"
       ∈ trace (ArthurGEOG567_Final.script h) /\
     exists r, Call 210 (Delete_management "in_memory\temp_table") r
                 ∈ trace (ArthurGEOG567_Final.script h)).
Proof.
  split; [|split].
  - apply clip_dem_faithful.
  - apply final_faithful.
  - apply line_201_handled.
Qed.

(** A failing [Clip] ends both scripts with its exception, reported; an
    [ExecuteError] and an [AttributeError] on line 201 are printed and the
    cleanup runs; Control-C on line 201 ends the run there. *)
Lemma C6_failures_of_the_survey_run :
  (outcome (clip_dem.script (failing_at 77 clip_error survey)) = Raise clip_error /\
   AddError ("Failed to clip DEM: " +:+ exc_str clip_error)
     ∈ trace (clip_dem.script (failing_at 77 clip_error survey))) /\
  (outcome (ArthurGEOG567_Final.script (failing_at 69 clip_error survey)) = Raise clip_error /\
   AddError ("Script failed with error: " +:+ exc_str clip_error)
     ∈ trace (ArthurGEOG567_Final.script (failing_at 69 clip_error survey))) /\
  (print "Error with tool execution: ERROR 000000"
     ∈ trace (ArthurGEOG567_Final.script (failing_at 201 locked survey)) /\
   exists r, Call 210 (Delete_management "in_memory\temp_table") r
               ∈ trace (ArthurGEOG567_Final.script (failing_at 201 locked survey))) /\
  (print "Unexpected error: module 'arcpy' has no attribute 'SomeTool_management'"
     ∈ trace (ArthurGEOG567_Final.script (python_host survey)) /\
   exists r, Call 210 (Delete_management "in_memory\temp_table") r
               ∈ trace (ArthurGEOG567_Final.script (python_host survey))) /\
  (outcome (ArthurGEOG567_Final.script (failing_at 201 interrupt survey)) = Raise interrupt /\
   last (trace (ArthurGEOG567_Final.script (failing_at 201 interrupt survey)))
   = Some (Call 201 (ArcpyAttr "SomeTool_management") (inl interrupt))).
Proof.
  split; [|split; [|split; [|split]]].
  - destruct (C6_toolbox_exceptions_propagate (failing_at 77 clip_error survey))
      as (Hclip & _).
    edestruct (Hclip 77) as [Hr Hlog]; [vm_compute; find_in|].
    split; [exact Hr | by apply Hlog].
  - destruct (C6_toolbox_exceptions_propagate (failing_at 69 clip_error survey))
      as (_ & Hfinal & _).
    edestruct (Hfinal 69) as [Hr Hlog]; [vm_compute; find_in | lia |].
    split; [exact Hr | apply Hlog; [lia | done]].
  - destruct (C6_toolbox_exceptions_propagate (failing_at 201 locked survey))
      as (_ & _ & H201 & _).
    edestruct H201 as [Hexecute _]; [vm_compute; find_in|].
    destruct (Hexecute eq_refl) as (answer & H204 & Hok & _).
    apply (elem_of_select (at_line 204)) in H204; [|reflexivity].
    vm_compute in H204. pick_cases H204. injection H204 as ->.
    exact (Hok _ eq_refl).
  - destruct (C6_toolbox_exceptions_propagate (python_host survey)) as (_ & _ & H201 & _).
    edestruct H201 as (_ & Hother & _); [vm_compute; find_in|].
    exact (Hother eq_refl eq_refl).
  - destruct (C6_toolbox_exceptions_propagate (failing_at 201 interrupt survey))
      as (_ & _ & H201 & _).
    edestruct H201 as (_ & _ & Hbase); [vm_compute; find_in|].
    exact (Hbase eq_refl).
Defined.

(** ** Further properties of the two scripts *)

(** ** clip_dem.py: what reaches the [Clip] tool *)

(** In every run of clip_dem.py that has read both extents, [Clip] is called
    exactly when the expanded rectangle of the points and the rectangle of
    the DEM are not disjoint. *)
Theorem clip_reached_iff_overlap h fc_path dem_path points dem :
  Call 55 (Describe fc_path) (inr (VDescription points)) ∈ trace (clip_dem.script h) ->
  Call 66 (Describe dem_path) (inr (VDescription dem)) ∈ trace (clip_dem.script h) ->
  (exists c r, Call 77 c r ∈ trace (clip_dem.script h)) <->
  aabb_disjoint (expanded 200000 (extent points)) (extent dem) = false.
Proof.
  apply (wp_run (clip_dem.script h) (fun t _ =>
    Call 55 (Describe fc_path) (inr (VDescription points)) ∈ t ->
    Call 66 (Describe dem_path) (inr (VDescription dem)) ∈ t ->
    (exists c r, Call 77 c r ∈ t) <->
    aabb_disjoint (expanded 200000 (extent points)) (extent dem) = false)).
  wp_walk_until ltac:(at_tool 84%nat).
  all: try wp_leave (fun ev => negb (at_line 55 ev || at_line 66 ev || at_line 77 ev)).
  all: intros Hpts Hdem; query_in Hpts; query_in Hdem; simplify_eq.
  all: unfold aabb_disjoint, expanded; cbn [XMin YMin XMax YMax].
  all: match goal with Hc : orb _ _ = _ |- _ => rewrite Hc end.
  all: split; [intros (c & r' & Hc) | intros Hd].
  all: try done.
  all: try (query_in Hc; fail).
  all: do 2 eexists; find_in.
Qed.

Lemma clip_reached_when_extents_overlap :
  exists c r, Call 77 c r ∈ trace (clip_dem.script (scenario_host happy)).
Proof.
  apply (clip_reached_iff_overlap (scenario_host happy)
           "C:\data\out.gdb\sites" "C:\data\dem.tif"
           {| dataType := "RasterDataset"; spatialReference := {| factoryCode := 3776 |};
              extent := sc_points happy |}
           {| dataType := "RasterDataset"; spatialReference := {| factoryCode := 3776 |};
              extent := sc_dem happy |}).
  - vm_compute. find_in.
  - vm_compute. find_in.
  - vm_compute. reflexivity.
Defined.

(** clip_dem.py clips the DEM it was given (parameter 3), in the DEM's own
    coordinate system, into the path of parameter 4: no run reprojects a
    raster, and when [Clip] is called the points were projected to the
    spatial reference that [Describe] reported for the DEM on line 48. *)
Theorem clip_dem_clips_in_the_dem_reference h :
  (forall a rect_ b c1 c2 c3 c4 r,
     Call 77 (Clip a rect_ b c1 c2 c3 c4) r ∈ trace (clip_dem.script h) ->
     Call 8 (GetParameterAsText 3) (inr (VStr a)) ∈ trace (clip_dem.script h) /\
     Call 9 (GetParameterAsText 4) (inr (VStr b)) ∈ trace (clip_dem.script h) /\
     exists d points out_fc,
       Call 48 (Describe a) (inr (VDescription d)) ∈ trace (clip_dem.script h) /\
       Call 52 (Project points out_fc (spatialReference d)) (inr VNone)
         ∈ trace (clip_dem.script h)) /\
  select is_reprojection (trace (clip_dem.script h)) = [].
Proof.
  split.
  - intros src rect_ dst k1 k2 k3 k4 r.
    run (clip_dem.script h).
    wp_walk_until ltac:(at_tool 84%nat).
    all: try wp_leave (fun ev => negb (at_line 77 ev)).
    all: intros H77; query_in H77; simplify_eq.
    all: split; [seek|]; split; [seek|].
    all: eexists _, _, _; split; seek.
  - apply select_none.
    change (emits_only (fun ev => negb (is_reprojection ev)) (clip_dem.script h)).
    emits_walk.
Qed.

Lemma survey_clip_dem_clips_in_the_dem_reference :
  Call 8 (GetParameterAsText 3) (inr (VStr "C:\data\dem.tif"))
    ∈ trace (clip_dem.script (python_host survey)) /\
  (exists d points out_fc,
     Call 48 (Describe "C:\data\dem.tif") (inr (VDescription d))
       ∈ trace (clip_dem.script (python_host survey)) /\
     Call 52 (Project points out_fc (spatialReference d)) (inr VNone)
       ∈ trace (clip_dem.script (python_host survey))) /\
  select is_reprojection (trace (clip_dem.script (python_host survey))) = [].
Proof.
  destruct (clip_dem_clips_in_the_dem_reference (python_host survey)) as [Hclip Hnone].
  edestruct (Hclip "C:\data\dem.tif") as (H8 & _ & H48); [vm_compute; find_in|].
  split; [exact H8|]. split; [exact H48 | exact Hnone].
Defined.

(** ** clip_dem.py: failures *)

(** A toolbox call of clip_dem.py that raises anywhere but in [Clip] ends
    the run without a line of [AddError]: only the three validations and
    the [Clip] handler report. *)
Theorem clip_dem_failures_are_silent h l c e :
  Call l c (inl e) ∈ trace (clip_dem.script h) -> l <> 77 ->
  select (on_channel Error) (trace (clip_dem.script h)) = [].
Proof.
  apply (wp_run (clip_dem.script h) (fun t _ =>
    Call l c (inl e) ∈ t -> l <> 77 -> select (on_channel Error) t = [])).
  wp_walk.
  all: intros Hf Hl; select_in Hf is_failure; simplify_eq.
  all: vm_compute; reflexivity.
Qed.

Lemma failed_projection_is_silent :
  select (on_channel Error) (trace (clip_dem.script (failing_at 52 locked happy))) = [].
Proof.
  eapply (clip_dem_failures_are_silent _ 52).
  - vm_compute. find_in.
  - lia.
Defined.

Lemma present_after_create init t l c v d d' :
  output_of c = Some d' -> d = d' ->
  d ∈ datasets init (t ++ [Call l c (inr v)]).
Proof.
  intros Hc <-. rewrite datasets_snoc. cbn.
  destruct c; try discriminate Hc; cbn in *; simplify_eq; set_solver.
Qed.

Lemma present_after_call init t l c r d :
  is_delete (Call l c r) = false -> d ∈ datasets init t ->
  d ∈ datasets init (t ++ [Call l c r]).
Proof.
  intros Hd Hin. rewrite datasets_snoc. destruct r; cbn; [done|].
  destruct c; try discriminate Hd; cbn; set_solver.
Qed.

Lemma present_after_log init t ch s d :
  d ∈ datasets init t -> d ∈ datasets init (t ++ [Log ch s]).
Proof. intros Hd. by rewrite datasets_snoc. Qed.

Lemma present_after_only init t chunk d :
  only (fun ev => negb (is_delete ev)) chunk ->
  d ∈ datasets init t -> d ∈ datasets init (t ++ chunk).
Proof.
  intros Hc. revert t. induction Hc as [|ev chunk Hev _ IH]; intros t Hd.
  - by rewrite app_nil_r.
  - replace (t ++ ev :: chunk) with ((t ++ [ev]) ++ chunk) by (by rewrite <- app_assoc).
    apply IH.
    destruct ev as [l c r|ch s]; [|by apply present_after_log].
    apply present_after_call; [|done].
    by apply negb_true_iff.
Qed.

(** A dataset is there once it was written and not deleted since. *)
Ltac present :=
  repeat lazymatch goal with
  | |- _ ∈ datasets _ (_ ++ [Log _ _]) => apply present_after_log
  | |- _ ∈ datasets _ (_ ++ [Call _ _ (inr _)]) =>
      first [ eapply present_after_create; [reflexivity | reflexivity]
            | apply present_after_call; [reflexivity|] ]
  | |- _ ∈ datasets _ (_ ++ [Call _ _ _]) => apply present_after_call; [reflexivity|]
  | Hc : only _ ?chunk |- _ ∈ datasets _ (_ ++ ?chunk) =>
      apply (present_after_only _ _ chunk _ Hc)
  end.

(** clip_dem.py has no [finally]: when a run fails after the in-memory
    feature class was made (line 37), the in-memory table and feature class
    are still there when it ends, unless the failure is that of a call of
    the cleanup itself or after. *)
Theorem clip_dem_failure_leaves_temporaries h init e c v :
  outcome (clip_dem.script h) = Raise e ->
  Call 37 c (inr v) ∈ trace (clip_dem.script h) ->
  ("in_memory\temp_table" ∈ datasets init (trace (clip_dem.script h)) /\
   "in_memory\temp_fc_wgs84" ∈ datasets init (trace (clip_dem.script h))) \/
  (exists l c', 84 <= l /\ Call l c' (inl e) ∈ trace (clip_dem.script h)).
Proof.
  apply (wp_run (clip_dem.script h) (fun t r =>
    r = Raise e ->
    Call 37 c (inr v) ∈ t ->
    ("in_memory\temp_table" ∈ datasets init t /\
     "in_memory\temp_fc_wgs84" ∈ datasets init t) \/
    (exists l c', 84 <= l /\ Call l c' (inl e) ∈ t))).
  wp_walk.
  all: intros Hr H37; try discriminate Hr; query_in H37; simplify_eq.
  all: first [ right; eexists _, _; split; [|find_in]; lia
             | left; split; present; fail ].
Qed.

Lemma missing_dem_leaves_temporaries :
  "in_memory\temp_table" ∈ datasets ∅ (trace (clip_dem.script (scenario_host no_dem))) /\
  "in_memory\temp_fc_wgs84" ∈ datasets ∅ (trace (clip_dem.script (scenario_host no_dem))).
Proof.
  edestruct (clip_dem_failure_leaves_temporaries (scenario_host no_dem) ∅)
    as [Hleft|(l & c' & Hl & Hf)].
  - vm_compute. reflexivity.
  - vm_compute. find_in.
  - exact Hleft.
  - exfalso. apply (elem_of_select is_failure) in Hf; [|reflexivity].
    vm_compute in Hf. by apply elem_of_nil in Hf.
Defined.

(** ** ArthurGEOG567_Final.py: from the DEM to the map *)

Lemma project_and_clip_clips h output_fc_path dem_path clipped_dem alberta_3tm :
  wp (ArthurGEOG567_Final.project_and_clip h output_fc_path dem_path clipped_dem alberta_3tm) []
    (fun t _ =>
       forall fc_path d,
         Call 57 (Describe fc_path) (inr (VDescription d)) ∈ t ->
         exists r,
           Call 69 (Clip "in_memory\projected_dem" (envelope h (expanded 5000 (extent d)))
                      clipped_dem "#" "#" "NONE" "MAINTAIN_EXTENT") r ∈ t).
Proof.
  wp_walk.
  all: intros fc_path d H57; pick_in H57 (at_line 57) ltac:(reflexivity); simplify_eq.
  all: eexists; seek.
Qed.

(** ArthurGEOG567_Final.py has no extent check: no run reports that the
    extents do not overlap, and once a run has read the extent of the points
    (line 57) it calls [Clip] on the projected DEM with that extent
    expanded by 5000, wherever the DEM lies. *)
Theorem final_clips_without_overlap_check h :
  select is_overlap_error (trace (ArthurGEOG567_Final.script h)) = [] /\
  forall fc_path d,
    Call 57 (Describe fc_path) (inr (VDescription d)) ∈ trace (ArthurGEOG567_Final.script h) ->
    exists clipped_dem r,
      Call 69 (Clip "in_memory\projected_dem" (envelope h (expanded 5000 (extent d)))
                 clipped_dem "#" "#" "NONE" "MAINTAIN_EXTENT") r
        ∈ trace (ArthurGEOG567_Final.script h).
Proof.
  split.
  - apply select_none.
    change (emits_only (fun ev => negb (is_overlap_error ev)) (ArthurGEOG567_Final.script h)).
    emits_walk.
  - intros fc_path d.
    run (ArthurGEOG567_Final.script h).
    skip_ahead (@ArthurGEOG567_Final.project_and_clip) (fun ev => negb (at_line 57 ev)).
    all: next ltac:(spec_block project_and_clip_clips Hclip).
    all: next ltac:(wp_leave (fun ev => negb (at_line 57 ev))).
    all: intros H57; pick_in H57 (at_line 57) ltac:(reflexivity).
    all: destruct (Hclip _ _ H57) as [r' Hr]; eexists _, r'; reach Hr.
Qed.

(** A DEM far from the points is clipped all the same. *)
Lemma far_dem_is_clipped_all_the_same :
  sc_points survey_far = rect 0 0 10 10 /\
  sc_dem survey_far = rect 300000 300000 300010 300010 /\
  aabb_disjoint (expanded 5000 (sc_points survey_far)) (sc_dem survey_far) = true /\
  select is_overlap_error (trace (ArthurGEOG567_Final.script (python_host survey_far))) = [] /\
  exists clipped_dem r,
    Call 69 (Clip "in_memory\projected_dem" "-5000.0 -5000.0 5010.0 5010.0"
               clipped_dem "#" "#" "NONE" "MAINTAIN_EXTENT") r
      ∈ trace (ArthurGEOG567_Final.script (python_host survey_far)).
Proof.
  split; [reflexivity|]. split; [reflexivity|].
  split; [vm_compute; reflexivity|].
  destruct (final_clips_without_overlap_check (python_host survey_far)) as [Hnone Hclip].
  split; [exact Hnone|].
  apply (Hclip "C:\data\out.gdb\sites"
           {| dataType := "RasterDataset"; spatialReference := {| factoryCode := 3776 |};
              extent := sc_points survey_far |}).
  vm_compute. find_in.
Defined.

Lemma project_and_clip_inputs h output_fc_path dem_path clipped_dem alberta_3tm :
  wp (ArthurGEOG567_Final.project_and_clip h output_fc_path dem_path clipped_dem alberta_3tm) []
    (fun t _ =>
       forall a rect_ b c1 c2 c3 c4 r,
         Call 69 (Clip a rect_ b c1 c2 c3 c4) r ∈ t ->
         b = clipped_dem /\
         exists in_fc,
           Call 47 (Project in_fc output_fc_path alberta_3tm) (inr VNone) ∈ t /\
           Call 52 (ProjectRaster dem_path a alberta_3tm) (inr VNone) ∈ t).
Proof.
  wp_walk.
  all: intros a rect_ b c1 c2 c3 c4 r' H69; pick_in H69 (at_line 69) ltac:(reflexivity).
  all: simplify_eq; split; [reflexivity|]; eexists; split; seek.
Qed.

(** What ArthurGEOG567_Final.py clips is the in-memory raster that
    [ProjectRaster] made of the DEM of parameter 3, and both that raster
    and the points were projected to the spatial reference the toolbox
    returned for the code 3776 on line 15; the result goes to the path of
    parameter 4. *)
Theorem final_clips_the_projected_dem h a rect_ b c1 c2 c3 c4 r :
  Call 69 (Clip a rect_ b c1 c2 c3 c4) r ∈ trace (ArthurGEOG567_Final.script h) ->
  exists dem_path sr in_fc out_fc,
    Call 8 (GetParameterAsText 3) (inr (VStr dem_path)) ∈ trace (ArthurGEOG567_Final.script h) /\
    Call 9 (GetParameterAsText 4) (inr (VStr b)) ∈ trace (ArthurGEOG567_Final.script h) /\
    Call 15 (SpatialReference 3776) (inr (VSpatialRef sr))
      ∈ trace (ArthurGEOG567_Final.script h) /\
    Call 47 (Project in_fc out_fc sr) (inr VNone) ∈ trace (ArthurGEOG567_Final.script h) /\
    Call 52 (ProjectRaster dem_path a sr) (inr VNone) ∈ trace (ArthurGEOG567_Final.script h).
Proof.
  run (ArthurGEOG567_Final.script h).
  walk_parameters.
  all: cut_until (@ArthurGEOG567_Final.project_and_clip) (fun ev => negb (at_line 69 ev)).
  all: next ltac:(spec_block project_and_clip_inputs Hclip).
  all: next ltac:(wp_leave (fun ev => negb (at_line 69 ev))).
  all: intros H69; pick_in H69 (at_line 69) ltac:(reflexivity).
  all: destruct (Hclip _ _ _ _ _ _ _ _ H69) as (-> & in_fc & H47 & H52).
  all: eexists _, _, in_fc, _.
  all: split; [seek|]; split; [seek|]; split; [seek|]; split; [reach H47 | reach H52].
Qed.

Lemma happy_final_clips_the_projected_dem :
  exists sr in_fc out_fc,
    Call 47 (Project in_fc out_fc sr) (inr VNone)
      ∈ trace (ArthurGEOG567_Final.script (scenario_host happy)) /\
    Call 52 (ProjectRaster "C:\data\dem.tif" "in_memory\projected_dem" sr) (inr VNone)
      ∈ trace (ArthurGEOG567_Final.script (scenario_host happy)).
Proof.
  edestruct (final_clips_the_projected_dem (scenario_host happy) "in_memory\projected_dem")
    as (dem_path & sr & in_fc & out_fc & H8 & _ & _ & H47 & H52).
  - vm_compute. find_in.
  - apply (elem_of_select (at_line 8)) in H8; [|reflexivity].
    vm_compute in H8. pick_cases H8. simplify_eq.
    by exists sr, in_fc, out_fc.
Defined.

Lemma project_and_clip_done h output_fc_path dem_path clipped_dem alberta_3tm :
  wp (ArthurGEOG567_Final.project_and_clip h output_fc_path dem_path clipped_dem alberta_3tm) []
    (fun t r =>
       r = Ok tt ->
       (exists in_fc, Call 47 (Project in_fc output_fc_path alberta_3tm) (inr VNone) ∈ t) /\
       (exists a rect_,
          Call 69 (Clip a rect_ clipped_dem "#" "#" "NONE" "MAINTAIN_EXTENT") (inr VNone) ∈ t)).
Proof.
  wp_walk.
  all: intros Hok; try discriminate Hok.
  split; [eexists; seek | eexists _, _; seek].
Qed.

Lemma topographic_layers_inputs h output_gdb output_fc clipped_dem :
  wp (ArthurGEOG567_Final.topographic_layers h output_gdb output_fc clipped_dem) []
    (fun t _ =>
       forall l c r d in_raster,
         Call l c r ∈ t -> derivative_of c = Some (d, in_raster) -> in_raster = clipped_dem).
Proof.
  wp_walk.
  all: intros l c r' d in_raster Hc Hin.
  all: pick_in Hc is_derivation ltac:(by (cbn; rewrite Hin)).
  all: simplify_eq; cbn in Hin; by simplify_eq.
Qed.

(** Every slope, aspect, curvature and hillshade computed by
    ArthurGEOG567_Final.py is derived from the raster that [Clip] has
    written on line 69. *)
Theorem derivations_read_the_clipped_dem h l c r d in_raster :
  Call l c r ∈ trace (ArthurGEOG567_Final.script h) ->
  derivative_of c = Some (d, in_raster) ->
  exists a rect_,
    Call 69 (Clip a rect_ in_raster "#" "#" "NONE" "MAINTAIN_EXTENT") (inr VNone)
      ∈ trace (ArthurGEOG567_Final.script h).
Proof.
  intros Hc Hin. revert Hc.
  assert (is_derivation (Call l c r) = true) as Hkeep by (by (cbn; rewrite Hin)).
  run (ArthurGEOG567_Final.script h).
  skip_ahead (@ArthurGEOG567_Final.project_and_clip) (fun ev => negb (is_derivation ev)).
  all: next ltac:(spec_cut_block (fun ev => negb (is_derivation ev)) project_and_clip_done Hclip).
  all: next ltac:(spec_block topographic_layers_inputs Htopo).
  all: next ltac:(wp_leave (fun ev => negb (is_derivation ev))).
  all: intros Hc; pick_in Hc is_derivation ltac:(exact Hkeep).
  all: rewrite (Htopo _ _ _ _ _ Hc Hin).
  all: destruct (Hclip eq_refl) as (_ & src & rect_ & H69); exists src, rect_; reach H69.
Qed.

Lemma happy_hillshade_reads_the_clipped_dem :
  exists a rect_,
    Call 69 (Clip a rect_ "C:\data\clipped.tif" "#" "#" "NONE" "MAINTAIN_EXTENT") (inr VNone)
      ∈ trace (ArthurGEOG567_Final.script (scenario_host happy)).
Proof.
  eapply (derivations_read_the_clipped_dem (scenario_host happy) 104
            (Hillshade "C:\data\clipped.tif" 315 45)).
  - vm_compute. find_in.
  - reflexivity.
Defined.

(** ** ArthurGEOG567_Final.py: the layers of the map *)

Lemma topographic_layers_saved h output_gdb output_fc clipped_dem :
  wp (ArthurGEOG567_Final.topographic_layers h output_gdb output_fc clipped_dem) []
    (fun t r =>
       r = Ok tt -> forall l l' d, (l, (l', d)) ∈ raster_layers ->
       exists c ras,
         derivative_of c = Some (d, clipped_dem) /\
         Call l' c (inr (VRaster ras)) ∈ t /\
         Call l' (Raster_save ras (raster_path h output_gdb output_fc d)) (inr VNone) ∈ t).
Proof.
  wp_walk.
  all: intros Hok l l' d Hrow; try discriminate Hok.
  unfold raster_layers in Hrow; pick_cases Hrow; injection Hrow as -> -> ->.
  all: eexists _, _; (split; [|split]); [ | seek | seek ]; reflexivity.
Qed.

Lemma add_layers_paths h output_gdb output_fc output_fc_path clipped_dem :
  wp (ArthurGEOG567_Final.add_layers h output_gdb output_fc output_fc_path clipped_dem) []
    (fun t _ =>
       forall l m p r l' d,
         Call l (addDataFromPath m p) r ∈ t -> (l, (l', d)) ∈ raster_layers ->
         p = raster_path h output_gdb output_fc d).
Proof.
  wp_walk.
  all: intros l m p r' l' d Hl Hrow.
  all: pick_in Hl is_raster_layer
         ltac:(cbn; apply bool_decide_eq_true; by apply (list_elem_of_fmap_2 fst _ _ Hrow)).
  all: injection Hl as -> _ -> _.
  all: unfold raster_layers in Hrow; pick_cases Hrow; by injection Hrow as _ ->.
Qed.

(** The four raster layers that ArthurGEOG567_Final.py adds to the map on
    lines 123 to 141 are the rasters it has derived and saved: the path
    handed to [addDataFromPath] is the path a derivative of the kind the
    line stands for was saved under. *)
Theorem map_layers_are_the_saved_rasters h l m p r l' d :
  Call l (addDataFromPath m p) r ∈ trace (ArthurGEOG567_Final.script h) ->
  (l, (l', d)) ∈ raster_layers ->
  exists c ras in_raster,
    derivative_of c = Some (d, in_raster) /\
    Call l' c (inr (VRaster ras)) ∈ trace (ArthurGEOG567_Final.script h) /\
    Call l' (Raster_save ras p) (inr VNone) ∈ trace (ArthurGEOG567_Final.script h).
Proof.
  intros Hl Hrow. revert Hl.
  assert (is_raster_layer (Call l (addDataFromPath m p) r) = true) as Hkeep.
  { cbn. apply bool_decide_eq_true. by apply (list_elem_of_fmap_2 fst _ _ Hrow). }
  run (ArthurGEOG567_Final.script h).
  skip_ahead (@ArthurGEOG567_Final.topographic_layers) (fun ev => negb (is_raster_layer ev)).
  all: next ltac:(spec_cut_block (fun ev => negb (is_raster_layer ev))
                    topographic_layers_saved Hsaved).
  all: next ltac:(cut_block (fun ev => negb (is_raster_layer ev))).
  all: next ltac:(spec_block add_layers_paths Hpaths).
  all: next ltac:(wp_leave (fun ev => negb (is_raster_layer ev))).
  all: intros Hl; pick_in Hl is_raster_layer ltac:(exact Hkeep).
  all: specialize (Hpaths _ _ _ _ _ _ Hl Hrow) as ->.
  all: destruct (Hsaved eq_refl _ _ _ Hrow) as (c & ras & Hc & Hmade & Hsave).
  all: eexists c, ras, _; (split; [exact Hc|]); split; [reach Hmade | reach Hsave].
Qed.

Lemma happy_slope_layer_is_the_saved_slope :
  exists c ras in_raster,
    derivative_of c = Some (SlopeOf, in_raster) /\
    Call 89 c (inr (VRaster ras)) ∈ trace (ArthurGEOG567_Final.script (scenario_host happy)) /\
    Call 89 (Raster_save ras "C:\data\out.gdb\sites_slope") (inr VNone)
      ∈ trace (ArthurGEOG567_Final.script (scenario_host happy)).
Proof.
  eapply (map_layers_are_the_saved_rasters (scenario_host happy) 129).
  - vm_compute. find_in.
  - unfold raster_layers. apply list_elem_of_further, list_elem_of_here.
Defined.

Lemma add_layers_returns h output_gdb output_fc output_fc_path clipped_dem :
  wp (ArthurGEOG567_Final.add_layers h output_gdb output_fc output_fc_path clipped_dem) []
    (fun t r =>
       forall ls, r = Ok ls ->
       (forall l l' n, (l, (l', n)) ∈ layer_order ->
          exists p, Call l' (addDataFromPath (ArthurGEOG567_Final.the_map ls) p)
                      (inr (VLayer (layer_added ls l'))) ∈ t) /\
       (exists v, Call 153 (addDataFromPath (ArthurGEOG567_Final.the_map ls) output_fc_path)
                    (inr v) ∈ t)).
Proof.
  wp_walk.
  all: intros ls Hok; try discriminate Hok.
  injection Hok as <-. split.
  - intros line line' n Hrow.
    unfold layer_order in Hrow; pick_cases Hrow; injection Hrow as -> -> ->.
    all: eexists; seek.
  - eexists. seek.
Qed.

Lemma order_layers_moves h ls :
  wp (ArthurGEOG567_Final.order_layers h ls) []
    (fun t _ =>
       forall l m lyr pos r,
         Call l (moveLayer m lyr pos) r ∈ t ->
         forall l' n, (l, (l', n)) ∈ layer_order ->
         m = ArthurGEOG567_Final.the_map ls /\ pos = PInt n /\ layer_added ls l' = Some lyr).
Proof.
  wp_walk.
  all: intros line m lyr pos r' Hl line' n Hrow.
  all: pick_in Hl is_raster_move
         ltac:(cbn; apply bool_decide_eq_true; by apply (list_elem_of_fmap_2 fst _ _ Hrow)).
  all: injection Hl as -> -> -> -> _.
  all: unfold layer_order in Hrow; pick_cases Hrow; injection Hrow as -> ->.
  all: by repeat split.
Qed.

(** When ArthurGEOG567_Final.py moves a raster layer on lines 169 to 173,
    it moves the layer that the matching [addDataFromPath] call returned, in
    the same map, to the position the script fixes for it: hillshade 1,
    slope 2, aspect 3, curvature 4, elevation 5. *)
Theorem raster_layers_are_moved_into_order h l m lyr pos r l' n :
  Call l (moveLayer m lyr pos) r ∈ trace (ArthurGEOG567_Final.script h) ->
  (l, (l', n)) ∈ layer_order ->
  pos = PInt n /\
  exists p, Call l' (addDataFromPath m p) (inr (VLayer (Some lyr)))
              ∈ trace (ArthurGEOG567_Final.script h).
Proof.
  intros Hl Hrow. revert Hl.
  assert (is_raster_move (Call l (moveLayer m lyr pos) r) = true) as Hkeep.
  { cbn. apply bool_decide_eq_true. by apply (list_elem_of_fmap_2 fst _ _ Hrow). }
  run (ArthurGEOG567_Final.script h).
  skip_ahead (@ArthurGEOG567_Final.add_layers) (fun ev => negb (is_raster_move ev)).
  all: next ltac:(spec_cut_block (fun ev => negb (is_raster_move ev)) add_layers_returns Hadd).
  all: next ltac:(spec_block order_layers_moves Hmoves).
  all: next ltac:(wp_leave (fun ev => negb (is_raster_move ev))).
  all: intros Hl; pick_in Hl is_raster_move ltac:(exact Hkeep).
  all: destruct (Hmoves _ _ _ _ _ Hl _ _ Hrow) as (-> & -> & Hlyr).
  all: destruct (Hadd _ eq_refl) as [Hrows _]; destruct (Hrows _ _ _ Hrow) as [p Hp].
  all: rewrite Hlyr in Hp; split; [reflexivity|]; exists p; reach Hp.
Qed.

Lemma happy_slope_layer_is_moved_second :
  exists p, Call 129 (addDataFromPath {| map_id := 0 |} p)
              (inr (VLayer (Some {| layer_name := "C:\data\out.gdb\sites_slope" |})))
              ∈ trace (ArthurGEOG567_Final.script (scenario_host happy)).
Proof.
  eapply proj2.
  eapply (raster_layers_are_moved_into_order (scenario_host happy) 170 _ _ _ _ 129 2).
  - vm_compute. find_in.
  - unfold layer_order. apply list_elem_of_further, list_elem_of_here.
Defined.

Lemma add_layers_missing h output_gdb output_fc output_fc_path clipped_dem :
  wp (ArthurGEOG567_Final.add_layers h output_gdb output_fc output_fc_path clipped_dem) []
    (fun t r =>
       (forall l m p,
          Call l (addDataFromPath m p) (inr (VLayer None)) ∈ t -> l ∈ ordered_layer_lines ->
          forall ls, r = Ok ls -> layer_added ls l = None) /\
       (forall c v, Call 153 c (inr v) ∈ t -> exists ls, r = Ok ls)).
Proof.
  wp_walk.
  all: split;
    [ intros line m p Hl Hline ls Hok; try discriminate Hok
    | intros c v H153; pick_in H153 (at_line 153) ltac:(reflexivity);
      try discriminate H153; by eexists ].
  injection Hok as <-.
  pick_in Hl is_ordered_layer ltac:(cbn; by apply bool_decide_eq_true).
  all: by injection Hl as -> _ _ <-.
Qed.

Lemma order_layers_missing h ls :
  wp (ArthurGEOG567_Final.order_layers h ls) []
    (fun t r =>
       forall l, l ∈ ordered_layer_lines -> layer_added ls l = None ->
       only (fun ev => negb (is_raster_move ev)) t /\ r = Ok tt /\ AddError reorder_failed_msg ∈ t).
Proof.
  wp_walk.
  all: intros line Hline Hnone.
  all: try (split; [only_tree | split; [reflexivity | seek]]; fail).
  all: exfalso; vm_compute in Hline; pick_cases Hline; subst line; cbn in Hnone; congruence.
Qed.

Lemma add_point_layer_starts h m output_fc_path :
  wp (ArthurGEOG567_Final.add_point_layer h m output_fc_path) []
    (fun t _ => exists c r, Call 182 c r ∈ t).
Proof. wp_walk. all: eexists _, _; seek. Qed.

(** When one of the five attempts to add a raster layer returns no layer,
    ArthurGEOG567_Final.py moves none of the raster layers; if the run gets
    past line 153, it reports that layers are missing with [AddError] and
    goes on to add the points on line 182: a missing layer does not stop
    the run. *)
Theorem missing_layer_blocks_the_reordering h l m p :
  Call l (addDataFromPath m p) (inr (VLayer None)) ∈ trace (ArthurGEOG567_Final.script h) ->
  l ∈ ordered_layer_lines ->
  select is_raster_move (trace (ArthurGEOG567_Final.script h)) = [] /\
  forall c v,
    Call 153 c (inr v) ∈ trace (ArthurGEOG567_Final.script h) ->
    AddError reorder_failed_msg ∈ trace (ArthurGEOG567_Final.script h) /\
    exists c' r', Call 182 c' r' ∈ trace (ArthurGEOG567_Final.script h).
Proof.
  intros Hl Hline. revert Hl.
  assert (is_ordered_layer (Call l (addDataFromPath m p) (inr (VLayer None))) = true) as Hkeep.
  { cbn. by apply bool_decide_eq_true. }
  run (ArthurGEOG567_Final.script h).
  skip_ahead (@ArthurGEOG567_Final.add_layers)
    (fun ev => negb ((is_raster_move ev || is_ordered_layer ev) || at_line 153 ev)).
  all: next ltac:(spec_cut_block (fun ev => negb (is_raster_move ev)) add_layers_missing Hadd).
  all: next ltac:(spec_cut_block (fun ev => negb (is_ordered_layer ev || at_line 153 ev))
             order_layers_missing Horder).
  all: next ltac:(spec_cut_block
             (fun ev => negb ((is_raster_move ev || is_ordered_layer ev) || at_line 153 ev))
             add_point_layer_starts Hpoint).
  all: next ltac:(wp_leave
             (fun ev => negb ((is_raster_move ev || is_ordered_layer ev) || at_line 153 ev))).
  all: split_only.
  all: intros Hl; pick_in Hl is_ordered_layer ltac:(exact Hkeep).
  all: destruct Hadd as [Hnone Hdone].
  all: try (destruct (Horder _ Hline (Hnone _ _ _ Hl Hline _ eq_refl)) as (Hmoves & Hok & Hmsg);
            try discriminate Hok).
  all: (split; [apply select_none; only_tree|]).
  all: intros c v H153; pick_in H153 (at_line 153) ltac:(reflexivity).
  all: try (destruct (Hdone _ _ H153) as [ls Hls]; discriminate Hls).
  all: (split; [reach Hmsg|]).
  all: destruct Hpoint as (c' & r' & H182); exists c', r'; reach H182.
Qed.

Lemma missing_aspect_layer_blocks_the_reordering :
  select is_raster_move (trace (ArthurGEOG567_Final.script (without_layer 135 happy))) = [] /\
  AddError reorder_failed_msg ∈ trace (ArthurGEOG567_Final.script (without_layer 135 happy)).
Proof.
  edestruct (missing_layer_blocks_the_reordering (without_layer 135 happy) 135)
    as [Hnone Hgoes].
  - vm_compute. find_in.
  - vm_compute. set_solver.
  - split; [exact Hnone|]. eapply Hgoes. vm_compute. find_in.
Defined.

Lemma add_point_layer_adds h m output_fc_path :
  wp (ArthurGEOG567_Final.add_point_layer h m output_fc_path) []
    (fun t res =>
       forall m' p r,
         Call 182 (addDataFromPath m' p) r ∈ t ->
         m' = m /\ p = output_fc_path /\
         (forall lyr, r = inr (VLayer (Some lyr)) ->
            exists r', Call 186 (moveLayer m lyr (PStr "TOP")) r' ∈ t) /\
         (r = inr (VLayer None) ->
            res = Ok tt /\
            t = [ Call 182 (addDataFromPath m output_fc_path) (inr (VLayer None));
                  AddError "Failed to add point feature class to the map." ])).
Proof.
  wp_walk.
  all: intros m' p r' H182; pick_in H182 (at_line 182) ltac:(reflexivity).
  all: injection H182 as -> -> ->; (split; [reflexivity|]); (split; [reflexivity|]).
  all: split; [intros lyr Hr | intros Hr]; simplify_eq.
  all: first [ eexists; seek | split; reflexivity ].
Qed.

Lemma print_layer_order_starts h m :
  wp (ArthurGEOG567_Final.print_layer_order h m) []
    (fun t _ =>
       exists answer t',
         t = [ AddMessage "Current layer order:"; Call 196 (listLayers m) answer ] ++ t').
Proof.
  wp_walk.
  - eexists _, []. reflexivity.
  - eexists _, _. reflexivity.
Qed.

(** A stretch of consecutive events of a trace. *)
Lemma stretch_here (t0 a b t' : list event) :
  exists t0' t1, (t0 ++ a) ++ (b ++ t') = t0' ++ (a ++ b) ++ t1.
Proof. exists t0, t'. by rewrite <- !(assoc_L (++)). Qed.

Lemma stretch_app_r (L T rest : list event) :
  (exists t0 t1, T = t0 ++ L ++ t1) -> exists t0 t1, T ++ rest = t0 ++ L ++ t1.
Proof. intros (t0 & t1 & ->). exists t0, (t1 ++ rest). by rewrite <- !(assoc_L (++)). Qed.

(** ArthurGEOG567_Final.py adds the points to the map twice: the call of
    line 182 hands [addDataFromPath] the map and the path that the call of
    line 153 was given and returned from.  It is the layer of the second
    call that is moved to the top.  When that call returns no layer the
    script reports it with [AddError] and goes on without raising: the next
    events of the run are the [AddError] line, the message that opens the
    layer listing and the [listLayers] call of line 196. *)
Theorem points_are_added_twice h m p r :
  Call 182 (addDataFromPath m p) r ∈ trace (ArthurGEOG567_Final.script h) ->
  (exists v, Call 153 (addDataFromPath m p) (inr v) ∈ trace (ArthurGEOG567_Final.script h)) /\
  (forall lyr, r = inr (VLayer (Some lyr)) ->
     exists r', Call 186 (moveLayer m lyr (PStr "TOP")) r'
                  ∈ trace (ArthurGEOG567_Final.script h)) /\
  (r = inr (VLayer None) ->
     exists answer t0 t1,
       trace (ArthurGEOG567_Final.script h) =
       t0 ++ [ Call 182 (addDataFromPath m p) (inr (VLayer None));
               AddError "Failed to add point feature class to the map.";
               AddMessage "Current layer order:";
               Call 196 (listLayers m) answer ] ++ t1).
Proof.
  run (ArthurGEOG567_Final.script h).
  skip_ahead (@ArthurGEOG567_Final.add_layers) (fun ev => negb (at_line 182 ev)).
  all: next ltac:(spec_cut_block (fun ev => negb (at_line 182 ev)) add_layers_returns Hadd).
  all: next ltac:(cut_block (fun ev => negb (at_line 182 ev))).
  all: next ltac:(spec_block add_point_layer_adds Hpoint).
  all: next ltac:(spec_cut_block (fun ev => negb (at_line 182 ev))
                    print_layer_order_starts Hprint).
  all: next ltac:(wp_leave (fun ev => negb (at_line 182 ev))).
  all: intros H182; pick_in H182 (at_line 182) ltac:(reflexivity).
  all: destruct (Hpoint _ _ _ H182) as (-> & -> & Hsome & Hnone).
  all: destruct (Hadd _ eq_refl) as [_ [v H153]].
  all: split; [exists v; reach H153|].
  all: split; [intros lyr Hr; destruct (Hsome _ Hr) as [r' H186]; exists r'; reach H186|].
  all: intros Hr; destruct (Hnone Hr) as [Hok Hchunk]; try discriminate Hok.
  all: destruct Hprint as (answer & t' & Hlist); exists answer.
  all: rewrite Hchunk, Hlist.
  all: repeat first [ apply (stretch_here _ [_; _] [_; _]) | apply stretch_app_r ].
Qed.

Lemma second_add_without_layer_goes_on :
  (exists v, Call 153 (addDataFromPath {| map_id := 0 |} "C:\data\out.gdb\sites") (inr v)
               ∈ trace (ArthurGEOG567_Final.script (without_layer 182 survey))) /\
  exists answer t0 t1,
    trace (ArthurGEOG567_Final.script (without_layer 182 survey)) =
    t0 ++ [ Call 182 (addDataFromPath {| map_id := 0 |} "C:\data\out.gdb\sites")
              (inr (VLayer None));
            AddError "Failed to add point feature class to the map.";
            AddMessage "Current layer order:";
            Call 196 (listLayers {| map_id := 0 |}) answer ] ++ t1.
Proof.
  edestruct (points_are_added_twice (without_layer 182 survey)) as (H153 & _ & Hnone).
  - vm_compute. find_in.
  - split; [exact H153 | by apply Hnone].
Defined.

(** ** ArthurGEOG567_Final.py: the handlers inside the outer [try] *)

Lemma some_tool_execute_error h :
  wp (ArthurGEOG567_Final.some_tool h) []
    (fun t r =>
       forall c e, Call 201 c (inl e) ∈ t -> is_ExecuteError e = true ->
       exists answer,
         Call 204 (GetMessages 2) answer ∈ t /\
         (forall msgs, answer = inr (VStr msgs) ->
            print ("Error with tool execution: " +:+ msgs) ∈ t /\ r = Ok tt) /\
         (forall e', answer = inl e' -> r = Raise e')).
Proof.
  wp_walk.
  all: intros c e' H201 Hexe; pick_in H201 (at_line 201) ltac:(reflexivity).
  all: injection H201 as _ <-; try congruence.
  all: eexists; split; [seek|]; split; [intros msgs Hr | intros e'' Hr]; simplify_eq.
  all: first [ reflexivity | split; [seek | reflexivity] ].
Qed.

(** An [ExecuteError] raised on line 201 of ArthurGEOG567_Final.py is
    answered on line 204 by asking the toolbox for its messages of severity
    2.  When that returns them, they are printed and the run goes on to the
    cleanup of line 210; when it raises, that exception ends the run. *)
Theorem execute_error_on_line_201_is_printed h c e :
  Call 201 c (inl e) ∈ trace (ArthurGEOG567_Final.script h) ->
  is_ExecuteError e = true ->
  exists answer,
    Call 204 (GetMessages 2) answer ∈ trace (ArthurGEOG567_Final.script h) /\
    (forall msgs, answer = inr (VStr msgs) ->
       print ("Error with tool execution: " +:+ msgs) ∈ trace (ArthurGEOG567_Final.script h) /\
       exists r, Call 210 (Delete_management "in_memory\temp_table") r
                   ∈ trace (ArthurGEOG567_Final.script h)) /\
    (forall e', answer = inl e' -> outcome (ArthurGEOG567_Final.script h) = Raise e').
Proof.
  run (ArthurGEOG567_Final.script h).
  skip_ahead (@ArthurGEOG567_Final.some_tool) (fun ev => negb (at_line 201 ev)).
  all: next ltac:(spec_block some_tool_execute_error Htool).
  all: next ltac:(spec_cut_block (fun ev => negb (at_line 201 ev)) clean_up_starts Hclean).
  all: next ltac:(wp_leave (fun ev => negb (at_line 201 ev))).
  all: intros H201 Hexe; pick_in H201 (at_line 201) ltac:(reflexivity).
  all: destruct (Htool _ _ H201 Hexe) as (answer & H204 & Hok & Hraise).
  all: exists answer; split; [reach H204|].
  all: split; [intros msgs Hr; destruct (Hok _ Hr) as [Hprint Hdone]; try discriminate Hdone
              | intros e' Hr; specialize (Hraise _ Hr); by simplify_eq ].
  all: split; [reach Hprint|]; destruct Hclean as [r' H210]; exists r'; reach H210.
Qed.

Lemma execute_error_on_line_201_is_printed_witness :
  print "Error with tool execution: ERROR 000000"
    ∈ trace (ArthurGEOG567_Final.script (failing_at 201 locked happy)).
Proof.
  edestruct (execute_error_on_line_201_is_printed (failing_at 201 locked happy))
    as (answer & H204 & Hok & _).
  - vm_compute. find_in.
  - reflexivity.
  - apply (elem_of_select (at_line 204)) in H204; [|reflexivity].
    vm_compute in H204. pick_cases H204. injection H204 as ->.
    by destruct (Hok _ eq_refl).
Defined.

Lemma order_layers_reports h ls :
  wp (ArthurGEOG567_Final.order_layers h ls) []
    (fun t r =>
       forall l c e msg,
         Call l c (inl e) ∈ t -> (l, msg) ∈ nested_handlers -> is_Exception e = true ->
         r = Raise e /\ exists t0, t = t0 ++ [AddError (msg +:+ exc_str e)]).
Proof.
  wp_walk.
  all: intros line c e' msg Hl Hrow Hexc.
  all: pick_in Hl is_nested
         ltac:(cbn; apply bool_decide_eq_true; by apply (list_elem_of_fmap_2 fst _ _ Hrow)).
  all: try discriminate Hl; injection Hl as -> _ <-; try congruence.
  all: unfold nested_handlers in Hrow; pick_cases Hrow; injection Hrow as ->.
  all: split; [reflexivity|]; eexists; reflexivity.
Qed.

Lemma add_point_layer_reports h m output_fc_path :
  wp (ArthurGEOG567_Final.add_point_layer h m output_fc_path) []
    (fun t r =>
       forall l c e msg,
         Call l c (inl e) ∈ t -> (l, msg) ∈ nested_handlers -> is_Exception e = true ->
         r = Raise e /\ exists t0, t = t0 ++ [AddError (msg +:+ exc_str e)]).
Proof.
  wp_walk.
  all: intros line c e' msg Hl Hrow Hexc.
  all: pick_in Hl is_nested
         ltac:(cbn; apply bool_decide_eq_true; by apply (list_elem_of_fmap_2 fst _ _ Hrow)).
  all: try discriminate Hl; injection Hl as -> _ <-; try congruence.
  all: unfold nested_handlers in Hrow; pick_cases Hrow; injection Hrow as ->.
  all: split; [reflexivity|]; eexists; reflexivity.
Qed.

(** An [Exception] raised by one of the [moveLayer] calls of
    ArthurGEOG567_Final.py (lines 169 to 173 and 186) is reported twice:
    the handler around the call reports it and raises it again, and the
    outer handler reports it once more.  These two [AddError] lines end the
    trace, and the run ends with the exception. *)
Theorem move_failure_is_reported_twice h l c e msg :
  Call l c (inl e) ∈ trace (ArthurGEOG567_Final.script h) ->
  (l, msg) ∈ nested_handlers ->
  is_Exception e = true ->
  outcome (ArthurGEOG567_Final.script h) = Raise e /\
  exists t0,
    trace (ArthurGEOG567_Final.script h) =
    t0 ++ [ AddError (msg +:+ exc_str e);
            AddError ("Script failed with error: " +:+ exc_str e) ].
Proof.
  intros Hl Hrow Hexc. revert Hl.
  assert (is_nested (Call l c (inl e)) = true) as Hkeep.
  { cbn. apply bool_decide_eq_true. by apply (list_elem_of_fmap_2 fst _ _ Hrow). }
  run (ArthurGEOG567_Final.script h).
  skip_ahead (@ArthurGEOG567_Final.order_layers) (fun ev => negb (is_nested ev)).
  all: next ltac:(spec_block order_layers_reports Horder).
  all: next ltac:(spec_block add_point_layer_reports Hpoint).
  all: next ltac:(wp_leave (fun ev => negb (is_nested ev))).
  all: intros Hl; pick_in Hl is_nested ltac:(exact Hkeep).
  all: first [ destruct (Horder _ _ _ _ Hl Hrow Hexc) as (Hr & t0 & ->)
             | destruct (Hpoint _ _ _ _ Hl Hrow Hexc) as (Hr & t0 & ->) ].
  all: try discriminate Hr; injection Hr as ->; try congruence.
  all: split; [reflexivity|].
  all: match goal with
       | |- exists _, (?pre ++ (?t0 ++ [_])) ++ [_] = _ =>
           exists (pre ++ t0); by rewrite <- !(assoc_L (++))
       end.
Qed.

Lemma failed_move_is_reported_twice :
  exists t0,
    trace (ArthurGEOG567_Final.script (failing_at 171 locked happy)) =
    t0 ++ [ AddError ("Error moving layers: " +:+ exc_str locked);
            AddError ("Script failed with error: " +:+ exc_str locked) ].
Proof.
  eapply proj2.
  eapply (move_failure_is_reported_twice (failing_at 171 locked happy) 171).
  - vm_compute. find_in.
  - unfold nested_handlers. do 2 apply list_elem_of_further. apply list_elem_of_here.
  - reflexivity.
Defined.

(** ** ArthurGEOG567_Final.py: what a failed run leaves behind *)

Lemma datasets_app init t1 t2 :
  datasets init (t1 ++ t2) = datasets (datasets init t1) t2.
Proof. unfold datasets. by rewrite foldl_app. Qed.

Lemma present_in_stretch init t chunk d :
  (forall init', d ∈ datasets init' chunk) -> d ∈ datasets init (t ++ chunk).
Proof. intros Hd. rewrite datasets_app. apply Hd. Qed.

Lemma import_points_leaves h input_csv wgs84 :
  wp (ArthurGEOG567_Final.import_points h input_csv wgs84) []
    (fun t _ =>
       forall c v, Call 35 c (inr v) ∈ t ->
       (forall init, "in_memory\temp_table" ∈ datasets init t) /\
       (forall init, "in_memory\temp_fc_wgs84" ∈ datasets init t)).
Proof.
  wp_walk.
  all: intros c v H35; pick_in H35 (at_line 35) ltac:(reflexivity).
  all: try discriminate H35.
  split; intros init; present.
Qed.

(** The same, through a stretch that is known to have written the dataset. *)
Ltac present_on :=
  repeat lazymatch goal with
  | |- _ ∈ datasets _ (_ ++ [Log _ _]) => apply present_after_log
  | Hd : forall init, ?d ∈ datasets init ?chunk |- ?d ∈ datasets _ (_ ++ ?chunk) =>
      apply (present_in_stretch _ _ chunk d Hd)
  | Hc : only (fun ev => negb (is_delete ev)) ?chunk |- _ ∈ datasets _ (_ ++ ?chunk) =>
      apply (present_after_only _ _ chunk _ Hc)
  | |- _ ∈ datasets _ (_ ++ [Call _ _ _]) => apply present_after_call; [reflexivity|]
  end.

(** The [try] of ArthurGEOG567_Final.py has no [finally]: when a run fails
    after the in-memory feature class was made (line 35), the in-memory
    table and feature class are still there when it ends, unless what
    failed is a call of the cleanup itself or after. *)
Theorem final_failure_leaves_temporaries h init e c v :
  outcome (ArthurGEOG567_Final.script h) = Raise e ->
  Call 35 c (inr v) ∈ trace (ArthurGEOG567_Final.script h) ->
  ("in_memory\temp_table" ∈ datasets init (trace (ArthurGEOG567_Final.script h)) /\
   "in_memory\temp_fc_wgs84" ∈ datasets init (trace (ArthurGEOG567_Final.script h))) \/
  (exists l c', 210 <= l /\ Call l c' (inl e) ∈ trace (ArthurGEOG567_Final.script h)).
Proof.
  run (ArthurGEOG567_Final.script h).
  skip_ahead (@ArthurGEOG567_Final.import_points)
    (fun ev => negb (is_delete ev || at_line 35 ev)).
  all: next ltac:(spec_cut_block (fun ev => negb (is_delete ev)) import_points_leaves Himport).
  all: cut_until (@ArthurGEOG567_Final.clean_up) (fun ev => negb (is_delete ev || at_line 35 ev)).
  all: wp_walk.
  all: intros Hr H35; try discriminate Hr; injection Hr as <-.
  all: split_only; pick_in H35 (at_line 35) ltac:(reflexivity).
  all: destruct (Himport _ _ H35) as [Htable Hfc].
  all: first [ right; eexists _, _; split; [|find_in]; lia
             | left; split; present_on; fail ].
Qed.

Lemma failed_clip_leaves_temporaries :
  "in_memory\temp_table"
    ∈ datasets ∅ (trace (ArthurGEOG567_Final.script (scenario_host clip_fails))) /\
  "in_memory\temp_fc_wgs84"
    ∈ datasets ∅ (trace (ArthurGEOG567_Final.script (scenario_host clip_fails))).
Proof.
  edestruct (final_failure_leaves_temporaries (scenario_host clip_fails) ∅)
    as [Hleft|(l & c' & Hl & Hf)].
  - vm_compute. reflexivity.
  - vm_compute. find_in.
  - exact Hleft.
  - exfalso. apply (elem_of_select is_failure) in Hf; [|reflexivity].
    vm_compute in Hf. pick_cases Hf. injection Hf as -> _. lia.
Defined.

(** ** ArthurGEOG567_Final.py: before the [try] *)

(** The parameters and the two spatial references are read before the
    [try] of ArthurGEOG567_Final.py (lines 5 to 15): when one of these calls
    raises, the run ends with that exception and nothing at all is
    reported, neither with [AddError] nor otherwise. *)
Theorem early_failure_is_not_reported h l c e :
  Call l c (inl e) ∈ trace (ArthurGEOG567_Final.script h) ->
  l <= 15 ->
  outcome (ArthurGEOG567_Final.script h) = Raise e /\
  select is_log (trace (ArthurGEOG567_Final.script h)) = [].
Proof.
  intros Hf Hl. revert Hf.
  assert (is_early (Call l c (inl e)) = true) as Hkeep.
  { cbn. apply Nat.leb_le. lia. }
  run (ArthurGEOG567_Final.script h).
  walk_parameters.
  all: next ltac:(wp_leave (fun ev => negb (is_early ev))).
  all: intros Hf; pick_in Hf is_early ltac:(exact Hkeep).
  all: injection Hf as -> -> <-.
  all: split; [reflexivity | vm_compute; reflexivity].
Qed.

Lemma failed_parameter_read_is_not_reported :
  select is_log (trace (ArthurGEOG567_Final.script (failing_at 8 locked happy))) = [].
Proof.
  eapply proj2.
  eapply (early_failure_is_not_reported (failing_at 8 locked happy) 8).
  - vm_compute. find_in.
  - lia.
Defined.

(** ** Both scripts: the output parameters *)

Lemma set_outputs_values h output_gdb output_fc output_fc_path clipped_dem :
  wp (ArthurGEOG567_Final.set_outputs h output_gdb output_fc output_fc_path clipped_dem) []
    (fun t _ =>
       forall l k v r,
         Call l (SetParameterAsText k v) r ∈ t ->
         (k = 2 /\ v = output_fc_path) \/ (k = 4 /\ v = clipped_dem)).
Proof.
  wp_walk.
  all: intros l k v r' Hset; pick_in Hset is_output ltac:(reflexivity).
  all: injection Hset as _ -> -> _; auto.
Qed.

(** What either script hands back to the tool dialog is what it has
    written: output parameter 2 is set to the feature class that [Project]
    wrote, output parameter 4 to the raster that [Clip] wrote, and no other
    parameter is set. *)
Theorem outputs_name_what_was_written h l k v r :
  (Call l (SetParameterAsText k v) r ∈ trace (clip_dem.script h) ->
   (k = 2 /\ exists in_fc sr,
      Call 52 (Project in_fc v sr) (inr VNone) ∈ trace (clip_dem.script h)) \/
   (k = 4 /\ exists a rect_ c1 c2 c3 c4,
      Call 77 (Clip a rect_ v c1 c2 c3 c4) (inr VNone) ∈ trace (clip_dem.script h))) /\
  (Call l (SetParameterAsText k v) r ∈ trace (ArthurGEOG567_Final.script h) ->
   (k = 2 /\ exists in_fc sr,
      Call 47 (Project in_fc v sr) (inr VNone) ∈ trace (ArthurGEOG567_Final.script h)) \/
   (k = 4 /\ exists a rect_ c1 c2 c3 c4,
      Call 69 (Clip a rect_ v c1 c2 c3 c4) (inr VNone)
        ∈ trace (ArthurGEOG567_Final.script h))).
Proof.
  split.
  - run (clip_dem.script h).
    wp_walk.
    all: intros Hset; select_in Hset is_output.
    all: injection Hset as _ -> -> _.
    all: first [ left; split; [reflexivity|]; eexists _, _; seek
               | right; split; [reflexivity|]; eexists _, _, _, _, _, _; seek ].
  - run (ArthurGEOG567_Final.script h).
    skip_ahead (@ArthurGEOG567_Final.project_and_clip) (fun ev => negb (is_output ev)).
    all: next ltac:(spec_cut_block (fun ev => negb (is_output ev)) project_and_clip_done Hclip).
    all: cut_until (@ArthurGEOG567_Final.set_outputs) (fun ev => negb (is_output ev)).
    all: next ltac:(spec_block set_outputs_values Hset).
    all: intros Hl; pick_in Hl is_output ltac:(reflexivity).
    all: destruct (Hclip eq_refl) as ((in_fc & H47) & (src & rect_ & H69)).
    all: destruct (Hset _ _ _ _ Hl) as [[-> ->]|[-> ->]].
    all: first [ left; split; [reflexivity|]; eexists _, _; reach H47
               | right; split; [reflexivity|]; eexists _, _, _, _, _, _; reach H69 ].
Qed.

Lemma happy_outputs_name_what_was_written :
  (exists in_fc sr,
     Call 52 (Project in_fc "C:\data\out.gdb\sites" sr) (inr VNone)
       ∈ trace (clip_dem.script (scenario_host happy))) /\
  (exists a rect_ c1 c2 c3 c4,
     Call 69 (Clip a rect_ "C:\data\clipped.tif" c1 c2 c3 c4) (inr VNone)
       ∈ trace (ArthurGEOG567_Final.script (scenario_host happy))).
Proof.
  split.
  - edestruct (proj1 (outputs_name_what_was_written (scenario_host happy) 88 2
                        "C:\data\out.gdb\sites" (inr VNone))) as [[_ H]|[Hk _]].
    + vm_compute. find_in.
    + exact H.
    + discriminate Hk.
  - edestruct (proj2 (outputs_name_what_was_written (scenario_host happy) 217 4
                        "C:\data\clipped.tif" (inr VNone))) as [[Hk _]|[_ H]].
    + vm_compute. find_in.
    + discriminate Hk.
    + exact H.
Defined.

(** ** ArthurGEOG567_Final.py: how a run ends *)

(** The last event of a run of ArthurGEOG567_Final.py tells how it ended.
    A run that ends normally ends on the closing message, which names the
    feature class and the geodatabase of parameters 2 and 1.  A run that
    ends with an [Exception] ends on the [AddError] line of the outer
    handler, unless the exception came from one of the reads before the
    [try], where the failed call is the last event. *)
Theorem last_event_tells_the_outcome h :
  match outcome (ArthurGEOG567_Final.script h) with
  | Ok _ =>
      exists output_gdb output_fc,
        Call 6 (GetParameterAsText 1) (inr (VStr output_gdb))
          ∈ trace (ArthurGEOG567_Final.script h) /\
        Call 7 (GetParameterAsText 2) (inr (VStr output_fc))
          ∈ trace (ArthurGEOG567_Final.script h) /\
        last (trace (ArthurGEOG567_Final.script h))
        = Some (AddMessage (closing_msg output_gdb output_fc))
  | Raise e =>
      is_Exception e = true ->
      last (trace (ArthurGEOG567_Final.script h))
      = Some (AddError ("Script failed with error: " +:+ exc_str e)) \/
      exists l c,
        l <= 15 /\ last (trace (ArthurGEOG567_Final.script h)) = Some (Call l c (inl e))
  end.
Proof.
  run (ArthurGEOG567_Final.script h).
  walk_parameters.
  all: cut_until (@ArthurGEOG567_Final.set_outputs) (fun _ : event => true).
  all: wp_walk.
  all: try (intros Hexc;
            first [ congruence
                  | left; apply last_snoc
                  | right; eexists _, _; split; [|apply last_snoc]; lia ]).
  eexists _, _; split; [seek|]; split; [seek|]; apply last_snoc.
Qed.

(** ** ArthurGEOG567_Final.py: the layer listing *)

Lemma for_emits {A} (l : list A) (body : A -> M unit) (f : A -> event) :
  (forall x, body x = emit (f x)) ->
  trace (for_ l body) = map f l /\ outcome (for_ l body) = Ok tt.
Proof.
  intros Hbody. induction l as [|x l [IHt IHo]]; [done|].
  cbn [for_]. rewrite trace_bind, outcome_bind, Hbody. cbn.
  by rewrite IHt, IHo.
Qed.

Lemma print_layer_order_lists h m :
  wp (ArthurGEOG567_Final.print_layer_order h m) []
    (fun t _ =>
       forall m' ls, Call 196 (listLayers m') (inr (VLayers ls)) ∈ t ->
       forall i layer, ls !! i = Some layer -> listing i layer ∈ t).
Proof.
  unfold ArthurGEOG567_Final.print_layer_order.
  do 4 wp_step.
  - intros m' ls H196. pick_in H196 (at_line 196) ltac:(reflexivity).
  - match goal with
    | |- wp (for_ ?l ?body) _ _ =>
        destruct (for_emits l body (fun x => listing x.1 x.2)) as [Ht Ho];
          [by intros [? ?]|]
    end.
    unfold wp. rewrite Ht. clear Ht Ho.
    intros m' ls H196 i layer Hi.
    apply elem_of_app in H196 as [H196|H196].
    + pick_in H196 (at_line 196) ltac:(reflexivity). injection H196 as _ ->.
      apply elem_of_app. right. apply list_elem_of_fmap. exists (i, layer).
      split; [reflexivity|]. apply elem_of_lookup_imap. by exists i, layer.
    + apply list_elem_of_fmap in H196 as ([j x] & Hx & _). discriminate Hx.
Qed.

(** Every layer that [listLayers] returns on line 196 of
    ArthurGEOG567_Final.py is listed with its index in that answer, counted
    from 0, and its name. *)
Theorem every_layer_is_listed h m ls i layer :
  Call 196 (listLayers m) (inr (VLayers ls)) ∈ trace (ArthurGEOG567_Final.script h) ->
  ls !! i = Some layer ->
  listing i layer ∈ trace (ArthurGEOG567_Final.script h).
Proof.
  intros H196 Hi. revert H196.
  run (ArthurGEOG567_Final.script h).
  skip_ahead (@ArthurGEOG567_Final.print_layer_order) (fun ev => negb (at_line 196 ev)).
  all: next ltac:(spec_block print_layer_order_lists Hlist).
  all: next ltac:(wp_leave (fun ev => negb (at_line 196 ev))).
  all: intros H196; pick_in H196 (at_line 196) ltac:(reflexivity).
  all: specialize (Hlist _ _ H196 _ _ Hi); reach Hlist.
Qed.

Lemma happy_second_layer_is_listed :
  AddMessage "1: sites_hillshade" ∈ trace (ArthurGEOG567_Final.script (scenario_host happy)).
Proof.
  apply (every_layer_is_listed (scenario_host happy) {| map_id := 0 |}
           [ {| layer_name := "sites" |}; {| layer_name := "sites_hillshade" |} ]
           1 {| layer_name := "sites_hillshade" |}).
  - vm_compute. find_in.
  - reflexivity.
Defined.
